(** * CanChat deployment-validation scripts: a shallow embedding

    The repository is a set of Python scripts that validate a deployed
    web page.  The first part of this file embeds them, one module for
    each script:

    - [PyStr]: the fragment of Python's [str] and [re] the scripts use;
    - [TestDeploymentSimple]: [test_deployment_simple.py], the static
      content checker;
    - [DeployAndTest]: [deploy_and_test.py], the workflow driver and the
      report aggregator;
    - [Playwright], [BrowserAutomation], [TestDeployment]: the browser
      scripts [browser_automation.py] and [test_deployment.py];
    - [TestHttpsServer]: [test_https_server.py];
    - [Cli]: what running each script sets off, given [sys.argv].

    Everything the scripts obtain from outside (HTTP responses, browser
    answers, subprocess results, the file system) is an explicit input of
    the embedded functions, so that the theorems quantify over every
    behaviour of the environment.

    The second part states and proves the properties, in one module of
    facts for each module of the first part. *)

From stdpp Require Import gmap strings list pretty.

(* ===================================================================== *)
(** * Python strings *)
(* ===================================================================== *)

Module PyStr.

(** A Python [str] is a sequence of Unicode code points. *)
Definition str := list N.

(** An ASCII literal of the source, as a [str]. *)
Definition lit (s : string) : str :=
  map Ascii.N_of_ascii (String.list_ascii_of_string s).

(** The double-quote character, U+0022. *)
Definition dquote : str := [34%N].

(** [s.startswith(p)]. *)
Fixpoint startswith (p s : str) : bool :=
  match p, s with
  | [], _ => true
  | _ :: _, [] => false
  | a :: p', b :: s' => (a =? b)%N && startswith p' s'
  end.

(** [needle in hay]: the substring test. *)
Fixpoint contains (needle hay : str) : bool :=
  startswith needle hay ||
  match hay with
  | [] => false
  | _ :: hay' => contains needle hay'
  end.

(** [\s] of the [re] module on a [str] pattern: the code points for
    which [str.isspace] holds. *)
Definition isspace (c : N) : bool :=
  ((9 <=? c) && (c <=? 13) || (28 <=? c) && (c <=? 32)
   || (c =? 133) || (c =? 160) || (c =? 5760)
   || (8192 <=? c) && (c <=? 8202)
   || (c =? 8232) || (c =? 8233) || (c =? 8239) || (c =? 8287)
   || (c =? 12288))%N.

(** The character class of the pattern: any character that is neither
    the double quote nor whitespace. *)
Definition not_quote_or_space (c : N) : bool :=
  negb (c =? 34)%N && negb (isspace c).

(** The longest prefix of [s] whose characters all satisfy [p]. *)
Fixpoint span_while (p : N -> bool) (s : str) : str :=
  match s with
  | [] => []
  | c :: s' => if p c then c :: span_while p s' else []
  end.

Definition http_prefix : str := lit "http://".

(** One attempt to match the pattern of the source (the literal
    [http://], then one or more characters of the class above) at the
    start of [s]: the matched text, if any.  The class is greedy and
    nothing follows it, so the match is the literal and the longest
    non-empty run. *)
Definition match_http (s : str) : option str :=
  if startswith http_prefix s then
    match span_while not_quote_or_space (drop (length http_prefix) s) with
    | [] => None
    | run => Some (http_prefix ++ run)
    end
  else None.

(** [re.findall] with that pattern: the matches, left to right and
    not overlapping.  [skip] counts the characters of [s] that still
    belong to the previous match. *)
Fixpoint findall_http_from (skip : nat) (s : str) : list str :=
  match s with
  | [] => []
  | _ :: s' =>
      match skip with
      | S k => findall_http_from k s'
      | O =>
          match match_http s with
          | Some m => m :: findall_http_from (length m - 1) s'
          | None => findall_http_from 0 s'
          end
      end
  end.

Definition findall_http (s : str) : list str := findall_http_from 0 s.

(** [s.strip()]: leading and trailing whitespace removed. *)
Fixpoint lstrip (s : str) : str :=
  match s with
  | [] => []
  | c :: s' => if isspace c then lstrip s' else s
  end.

Definition rstrip (s : str) : str := rev (lstrip (rev s)).

Definition strip (s : str) : str := rstrip (lstrip s).

(** The value of an ASCII digit. *)
Definition digit_value (c : N) : option Z :=
  if ((48 <=? c) && (c <=? 57))%N then Some (Z.of_N (c - 48)) else None.

(** Decimal digits, with single underscores allowed between digits. *)
Fixpoint parse_digits (acc : Z) (after_digit : bool) (s : str) : option Z :=
  match s with
  | [] => if after_digit then Some acc else None
  | c :: s' =>
      if (c =? 95)%N then
        if after_digit then parse_digits acc false s' else None
      else
        match digit_value c with
        | Some d => parse_digits (10 * acc + d)%Z true s'
        | None => None
        end
  end.

(** [int(s)] for a text whose digits are ASCII: surrounding whitespace,
    an optional sign, then the digits.  [None] stands for [ValueError].
    The scripts are embedded over an arbitrary [int]; this one serves in
    examples. *)
Definition int_ascii (s : str) : option Z :=
  match strip s with
  | 43%N :: digits => parse_digits 0 false digits
  | 45%N :: digits => Z.opp <$> parse_digits 0 false digits
  | digits => parse_digits 0 false digits
  end.

End PyStr.

(* ===================================================================== *)
(** * [test_deployment_simple.py]: the static-content checker *)
(* ===================================================================== *)

Module TestDeploymentSimple.
Import PyStr.

(** ** Console output

    One constructor per [print] statement of [test_deployment_simple]. *)
Inductive line :=
| Testing_deployment
| Testing_connectivity
| Accessible
| Unexpected_status (status : Z)
| Content_loaded (characters : nat)
| Found (element : str)
| Missing (element : str)
| PeerJS_found
| PeerJS_missing
| Http_resources_found (count : nat)
| Http_resource (resource : str)
| All_https
| Browser_detection_found
| Browser_detection_missing
| Test_framework_found
| Test_framework_missing
| Feature_found (feature : str)
| Feature_missing (feature : str)
| All_passed
| Network_error (e : string)
| Unexpected_error (e : string).

(** ** Control flow

    The function prints as it goes and leaves through [return]
    statements in the middle of its body.  A computation yields what it
    printed and either a value to go on with or the returned boolean. *)
Inductive flow (A : Type) :=
| Next (a : A)
| Return (b : bool).
Arguments Next {A} a.
Arguments Return {A} b.

Definition prog (A : Type) : Type := list line * flow A.

#[export] Instance prog_ret : MRet prog := λ A a, ([], Next a).

#[export] Instance prog_bind : MBind prog := λ A B f m,
  match m with
  | (out, Next a) => let '(out', r) := f a in (out ++ out', r)
  | (out, Return b) => (out, Return b)
  end.

Definition print (l : line) : prog unit := ([l], Next tt).
Definition return_ {A} (b : bool) : prog A := ([], Return b).

(** [for x in xs: body]. *)
Fixpoint for_each {A} (xs : list A) (body : A → prog unit) : prog unit :=
  match xs with
  | [] => mret tt
  | x :: xs' => body x;; for_each xs' body
  end.

(** A function body all of whose paths end in [return]. *)
Definition run (p : prog Empty_set) : bool * list line :=
  match p with
  | (out, Return b) => (b, out)
  | (_, Next a) => match a with end
  end.

(** ** The markers *)

Definition id_attr (name : string) : str :=
  lit "id=" ++ dquote ++ lit name ++ dquote.

Definition required_elements : list str :=
  [ lit "<title>WebRTC PeerJS Chat</title>";
    lit "<h1>WebRTC PeerJS Chat</h1>";
    id_attr "my-id";
    id_attr "peer-id-input";
    id_attr "connect-btn";
    id_attr "chat-log";
    id_attr "message-input";
    id_attr "send-btn";
    id_attr "test-output" ].

Definition peerjs_marker : str := lit "peerjs@1.5.0".
Definition browser_detection_marker : str := lit "detectAndBlockLegacyBrowsers".
Definition describe_marker : str := lit "describe(".
Definition test_marker : str := lit "test(".

Definition webrtc_features : list str :=
  [ lit "RTCPeerConnection";
    lit "RTCDataChannel";
    lit "stun:stun.l.google.com:19302";
    lit "new Peer(" ].

(** Every literal the function looks for, in the order of its tests. *)
Definition all_markers : list str :=
  required_elements
    ++ [peerjs_marker; browser_detection_marker; describe_marker; test_marker]
    ++ webrtc_features.

(** ** The checker *)

(** The pattern of every test: [if cond: print(ok) else: print(bad);
    return False]. *)
Definition require (cond : bool) (ok bad : line) : prog unit :=
  if cond then print ok else print bad;; return_ false.

(** The body of the two marker loops. *)
Definition check_marker (found missing : str → line) (content marker : str)
  : prog unit :=
  require (contains marker content) (found marker) (missing marker).

(** Test 5: the insecure references are listed, and the function goes on. *)
Definition check_http_resources (content : str) : prog unit :=
  let http_resources := findall_http content in
  match http_resources with
  | _ :: _ =>
      print (Http_resources_found (length http_resources));;
      for_each http_resources (λ resource, print (Http_resource resource))
  | [] => print All_https
  end.

(** Tests 2 to 8, on the decoded body. *)
Definition check_content (content : str) : prog Empty_set :=
  print (Content_loaded (length content));;
  for_each required_elements (check_marker Found Missing content);;
  require (contains peerjs_marker content) PeerJS_found PeerJS_missing;;
  check_http_resources content;;
  require (contains browser_detection_marker content)
          Browser_detection_found Browser_detection_missing;;
  require (contains describe_marker content && contains test_marker content)
          Test_framework_found Test_framework_missing;;
  for_each webrtc_features (check_marker Feature_found Feature_missing content);;
  print All_passed;;
  return_ true.

(** What [urllib.request.urlopen] and [response.read().decode] give. *)
Inductive read_result :=
| Decoded (content : str)
| Read_error (e : string).

Inductive urlopen_result :=
| URLError (e : string)
| Other_exception (e : string)
| Response (status : Z) (body : read_result).

Definition test_deployment_simple (r : urlopen_result) : bool * list line :=
  run (print Testing_deployment;;
       print Testing_connectivity;;
       match r with
       | URLError e => print (Network_error e);; return_ false
       | Other_exception e => print (Unexpected_error e);; return_ false
       | Response status body =>
           (if (status =? 200)%Z then print Accessible
            else print (Unexpected_status status);; return_ false);;
           match body with
           | Read_error e => print (Unexpected_error e);; return_ false
           | Decoded content => check_content content
           end
       end).

(** The checker on a fetched body: status 200 and a decoded text. *)
Definition static_check (content : str) : bool * list line :=
  test_deployment_simple (Response 200 (Decoded content)).

(** The exit status of the [__main__] block, which ignores [sys.argv]. *)
Definition exit_status (r : urlopen_result) : Z :=
  if (test_deployment_simple r).1 then 0%Z else 1%Z.

(** ** Reading the output *)

Definition is_missing_report (l : line) : bool :=
  match l with
  | Missing _ | PeerJS_missing | Browser_detection_missing
  | Test_framework_missing | Feature_missing _ => true
  | _ => false
  end.

Definition is_warning (l : line) : bool :=
  match l with
  | Http_resources_found _ | Http_resource _ => true
  | _ => false
  end.

Definition missing_reports (out : list line) : list line :=
  List.filter is_missing_report out.

Definition warnings (out : list line) : list line :=
  List.filter is_warning out.

(** The lines that report the matches [found] of the pattern. *)
Definition warning_lines (found : list str) : list line :=
  match found with
  | [] => []
  | _ :: _ => Http_resources_found (length found) :: map Http_resource found
  end.

(** What Test 5 prints for the matches [found]. *)
Definition http_report (found : list str) : list line :=
  match found with
  | [] => [All_https]
  | _ :: _ => warning_lines found
  end.

(** The lines printed before the body is examined. *)
Definition preamble (content : str) : list line :=
  [Testing_deployment; Testing_connectivity; Accessible;
   Content_loaded (length content)].

(** Everything printed for a body that passes every test. *)
Definition passing_output (content : str) : list line :=
  preamble content
    ++ map Found required_elements
    ++ [PeerJS_found]
    ++ http_report (findall_http content)
    ++ [Browser_detection_found; Test_framework_found]
    ++ map Feature_found webrtc_features
    ++ [All_passed].

(** The markers tested before the scan for insecure references. *)
Definition markers_before_scan : list str :=
  required_elements ++ [peerjs_marker].

(** ** Fail-fast evaluation

    The behaviour of the checker stated on its own: a list of tests is
    gone through in order, each test that holds prints its line, and the
    first test that does not hold prints its line and ends the run. *)
Record subcheck := {
  holds : bool;
  ok_line : line;
  bad_line : line
}.

Fixpoint fail_fast (checks : list subcheck) : bool * list line :=
  match checks with
  | [] => (true, [])
  | c :: checks' =>
      if holds c then
        let '(verdict, out) := fail_fast checks' in (verdict, ok_line c :: out)
      else (false, [bad_line c])
  end.

Definition marker_check (found missing : str → line) (content marker : str)
  : subcheck :=
  {| holds := contains marker content;
     ok_line := found marker; bad_line := missing marker |}.

(** The tests before the scan for insecure references: the nine
    required elements and the PeerJS version. *)
Definition checks_before_scan (content : str) : list subcheck :=
  map (marker_check Found Missing content) required_elements
    ++ [ {| holds := contains peerjs_marker content;
            ok_line := PeerJS_found; bad_line := PeerJS_missing |} ].

(** The tests after it: browser detection, test framework (two tokens,
    one test), and the four WebRTC features. *)
Definition checks_after_scan (content : str) : list subcheck :=
  [ {| holds := contains browser_detection_marker content;
       ok_line := Browser_detection_found;
       bad_line := Browser_detection_missing |};
    {| holds := contains describe_marker content && contains test_marker content;
       ok_line := Test_framework_found;
       bad_line := Test_framework_missing |} ]
    ++ map (marker_check Feature_found Feature_missing content) webrtc_features.

(** The whole run: the scan is reached, and its report printed, only
    when every test before it holds. *)
Definition fail_fast_run (content : str) : bool * list line :=
  match fail_fast (checks_before_scan content) with
  | (false, out) => (false, preamble content ++ out)
  | (true, out) =>
      let '(verdict, out') := fail_fast (checks_after_scan content) in
      (verdict,
       preamble content ++ out ++ http_report (findall_http content) ++ out'
         ++ (if verdict then [All_passed] else []))
  end.

(** Joins texts with a separator, as [sep.join(parts)]. *)
Fixpoint join (sep : str) (parts : list str) : str :=
  match parts with
  | [] => []
  | [p] => p
  | p :: ps => p ++ sep ++ join sep ps
  end.

(** ** Fixture pages *)

(** Every marker, separated by blanks. *)
Definition complete_page : str := join (lit " ") all_markers.

(** The same page with two insecure references added. *)
Definition insecure_page : str :=
  complete_page ++ lit " http://cdn.example/a.js http://cdn.example/b.css".

(** A page with the nine required elements and nothing else. *)
Definition elements_only_page : str := join (lit " ") required_elements.

(** ** The rest of the script *)

(** What fetching a dependency gives: a response with its status, or
    an exception of any kind. *)
Inductive dependency_result :=
| Dep_status (status : Z)
| Dep_error (e : string).

Inductive dependency_line :=
| Testing_dependencies
| Dependency_ok (dep : string)
| Dependency_status (dep : string) (status : Z)
| Dependency_error (dep : string) (e : string).

Definition dependencies : list string :=
  [ "https://unpkg.com/peerjs@1.5.0/dist/peerjs.min.js" ].

(** [test_external_dependencies]: every dependency is fetched and
    reported; nothing is returned. *)
Definition test_external_dependencies (urlopen : string → dependency_result)
  : list dependency_line :=
  Testing_dependencies
    :: map (λ dep,
              match urlopen dep with
              | Dep_status status =>
                  if (status =? 200)%Z then Dependency_ok dep
                  else Dependency_status dep status
              | Dep_error e => Dependency_error dep e
              end)
           dependencies.

Inductive closing_line :=
| Validation_succeeded
| Validation_failed.

(** Everything one run of the script prints. *)
Record console := {
  page_lines : list line;
  dependency_lines : list dependency_line;
  closing : closing_line
}.

(** The [__main__] block: the status handed to [exit], and the console. *)
Definition main (page : urlopen_result) (urlopen : string → dependency_result)
  : Z * console :=
  let '(success, out) := test_deployment_simple page in
  let deps := test_external_dependencies urlopen in
  if success
  then (0%Z, {| page_lines := out; dependency_lines := deps;
                closing := Validation_succeeded |})
  else (1%Z, {| page_lines := out; dependency_lines := deps;
                closing := Validation_failed |}).

End TestDeploymentSimple.

(* ===================================================================== *)
(** * [deploy_and_test.py]: the workflow driver and the report *)
(* ===================================================================== *)

Module DeployAndTest.
Import PyStr.

(** What [subprocess.run(command, shell=True, capture_output=True,
    text=True, timeout=60)] does: it completes with an exit status and
    the captured streams, it raises [TimeoutExpired], or it raises another
    exception.  An interrupt from the keyboard is no result of a check:
    it ends the process through the handler around [main]. *)
Inductive run_outcome :=
| Completed (returncode : Z) (stdout stderr : str)
| TimeoutExpired
| Raised (e : string).

(** The messages of the script, one constructor per format string. *)
Inductive message :=
| Running (description : string)
| Succeeded (description : string)
| Failed (description : string)
| Timed_out (description : string)
| Exception_raised (description e : string)
| Waiting (seconds : nat)
| Seconds_remaining (i : nat)
| Wait_complete
| Starting_validation
| Critical_test_failed (description : string)
| Generating_report
| Starting_workflow
| Completed_successfully
| Testing_failed.

Inductive level := INFO | ERROR | WARN.

(** A row of the printed report: [status test (CRITICAL)]. *)
Record report_row := {
  row_pass : bool;
  row_test : string;
  row_critical : bool
}.

(** What the script does to the outside, in order. *)
Inductive event :=
| Log_message (lvl : level) (m : message)
| Print_output (text : str)
| Print_error (text : str)
| Subprocess_run (command : string)
| Sleep (seconds : nat)
| Print_totals (total passed failed critical_failed : nat)
| Print_row (row : report_row)
| Print_all_critical_passed
| Print_critical_failed.

Record test_case := mk_test {
  command : string;
  description : string;
  test_critical : bool
}.

(** The dictionary appended to [results]. *)
Record result := {
  test : string;
  success : bool;
  critical : bool
}.

Definition tests : list test_case :=
  [ {| command := "python3 test_deployment_simple.py";
       description := "Simple HTTP validation test";
       test_critical := true |};
    {| command := "python3 test_deployment_uvx.py";
       description := "Comprehensive uvx/playwright test";
       test_critical := true |};
    {| command := "uvx --from playwright playwright screenshot https://mehrmorgen.github.io/CanChat/chat.html post_deploy_test.png";
       description := "Post-deployment screenshot";
       test_critical := false |} ].

(** [if text.strip(): print(text.strip())]. *)
Definition print_if_nonblank (pr : str → event) (text : str) : list event :=
  match strip text with
  | [] => []
  | stripped => [pr stripped]
  end.

Section Workflow.

(** The environment: what running each command line gives. *)
Variable subprocess_run : string → run_outcome.

Definition run_command (command description : string) : bool * list event :=
  let started := [Log_message INFO (Running description); Subprocess_run command] in
  match subprocess_run command with
  | Completed returncode stdout stderr =>
      if (returncode =? 0)%Z then
        (true, started ++ [Log_message INFO (Succeeded description)]
                 ++ print_if_nonblank Print_output stdout)
      else
        (false, started ++ [Log_message ERROR (Failed description)]
                  ++ print_if_nonblank Print_error stderr)
  | TimeoutExpired =>
      (false, started ++ [Log_message ERROR (Timed_out description)])
  | Raised e =>
      (false, started ++ [Log_message ERROR (Exception_raised description e)])
  end.

(** The loop of [test_deployment] over the remaining [tests], with the
    [results] gathered so far. *)
Fixpoint run_tests (ts : list test_case) (results : list result)
  : list result * list event :=
  match ts with
  | [] => (results, [])
  | t :: ts' =>
      let '(ok, ev) := run_command (command t) (description t) in
      let results' :=
        results ++ [ {| test := description t; success := ok;
                        critical := test_critical t |} ] in
      let failed :=
        if negb ok && test_critical t
        then [Log_message ERROR (Critical_test_failed (description t))]
        else [] in
      let '(final, ev') := run_tests ts' results' in
      (final, ev ++ failed ++ [Sleep 2] ++ ev')
  end.

Definition test_deployment : list result * list event :=
  let '(results, ev) := run_tests tests [] in
  (results, Log_message INFO Starting_validation :: ev).

End Workflow.

(** [sum(1 for r in results if cond(r))]. *)
Definition sum_ones (cond : result → bool) (results : list result) : nat :=
  list_sum (map (λ _, 1) (List.filter cond results)).

Definition total_tests (results : list result) : nat := length results.

Definition passed_tests (results : list result) : nat :=
  sum_ones success results.

Definition failed_tests (results : list result) : nat :=
  total_tests results - passed_tests results.

Definition critical_failures (results : list result) : nat :=
  sum_ones (λ r, negb (success r) && critical r) results.

Definition generate_test_report (results : list result) : bool * list event :=
  let header :=
    [ Log_message INFO Generating_report;
      Print_totals (total_tests results) (passed_tests results)
                   (failed_tests results) (critical_failures results) ] in
  let rows :=
    map (λ r, Print_row {| row_pass := success r; row_test := test r;
                           row_critical := critical r |}) results in
  if critical_failures results =? 0
  then (true, header ++ rows ++ [Print_all_critical_passed])
  else (false, header ++ rows ++ [Print_critical_failed]).

(** [for i in range(seconds, 0, -1)]: the countdown. *)
Fixpoint countdown (i : nat) : list event :=
  match i with
  | O => []
  | S i' =>
      (if (i mod 10 =? 0) || (i <=? 5)
       then [Log_message INFO (Seconds_remaining i)] else [])
        ++ [Sleep 1] ++ countdown i'
  end.

Definition wait_for_deployment (seconds : nat) : list event :=
  [Log_message INFO (Waiting seconds)] ++ countdown seconds
    ++ [Log_message INFO Wait_complete].

(** [main]: the exit status handed to [sys.exit], and what happened. *)
Definition main (subprocess_run : string → run_outcome) : Z * list event :=
  let '(results, ev_tests) := test_deployment subprocess_run in
  let '(ok, ev_report) := generate_test_report results in
  let before :=
    [Log_message INFO Starting_workflow] ++ wait_for_deployment 30
      ++ ev_tests ++ ev_report in
  if ok then (0%Z, before ++ [Log_message INFO Completed_successfully])
  else (1%Z, before ++ [Log_message ERROR Testing_failed]).

(** ** Reading a run *)

Definition commands_run (ev : list event) : list string :=
  omap (λ e, match e with Subprocess_run c => Some c | _ => None end) ev.

(** A check succeeds exactly when its command completes with status 0. *)
Definition outcome_ok (o : run_outcome) : bool :=
  match o with
  | Completed returncode _ _ => (returncode =? 0)%Z
  | _ => false
  end.

(** The logged cause of a failure of the check [description]. *)
Definition failure_cause (description : string) (o : run_outcome) : event :=
  match o with
  | Completed _ _ _ => Log_message ERROR (Failed description)
  | TimeoutExpired => Log_message ERROR (Timed_out description)
  | Raised e => Log_message ERROR (Exception_raised description e)
  end.

(** The number of results that are both failed and critical. *)
Definition failed_and_critical (r : result) : bool :=
  negb (success r) && critical r.

Definition count_failed_critical (results : list result) : nat :=
  length (List.filter failed_and_critical results).

(** A failure that is not critical. *)
Definition noncritical_failure (r : result) : bool :=
  negb (success r) && negb (critical r).

(** The result of the check [t] when its command ends in [o]. *)
Definition result_of (t : test_case) (o : run_outcome) : result :=
  {| test := description t; success := outcome_ok o;
     critical := test_critical t |}.

(** An environment in which the first check times out, the second one
    raises and the third one exits with status 2. *)
Definition all_fail (command : string) : run_outcome :=
  if bool_decide (command = "python3 test_deployment_simple.py")
  then TimeoutExpired
  else if bool_decide (command = "python3 test_deployment_uvx.py")
  then Raised "OSError"
  else Completed 2 [] (lit "no browser").


(** The countdown notices of a run: the seconds they announce. *)
Definition countdown_notices (ev : list event) : list nat :=
  omap (λ e, match e with
             | Log_message _ (Seconds_remaining i) => Some i
             | _ => None
             end) ev.

End DeployAndTest.

(* ===================================================================== *)
(** * The browser: calls, answers and a monad for the scripts *)
(* ===================================================================== *)

Module Playwright.
Import PyStr.

(** The two browser scripts are embedded as computations that call the
    browser and receive its answers.  Their console output is left out:
    no [print] of theirs decides what they do next, except through the
    [len] of a value, which is kept. *)

(** The values the scripts receive from the browser. *)
Inductive value :=
| VNone
| VBool (b : bool)
| VInt (z : Z)
| VStr (s : str)
| VList (items : list str).

#[global] Instance value_eq_dec : EqDecision value.
Proof. solve_decision. Defined.

(** Python's truth value of an object. *)
Definition truthy (v : value) : bool :=
  match v with
  | VNone => false
  | VBool b => b
  | VInt z => negb (z =? 0)%Z
  | VStr s => negb (bool_decide (s = []))
  | VList items => negb (bool_decide (items = []))
  end.

(** An exception is an instance of [Exception] (a Playwright error, an
    [AssertionError], a [TypeError], ...) or only of [BaseException]
    ([KeyboardInterrupt], [CancelledError], ...): [except Exception]
    catches the first kind only. *)
Inductive exn :=
| Exception (what : string)
| BaseException (what : string).

(** Every operation of the Playwright and [asyncio] libraries that the
    scripts invoke. *)
Inductive call :=
| Start_playwright
| Stop_playwright
| Launch (headless : bool)
| New_context (viewport : option (nat * nat))
| New_page
| Browser_close
| Goto (url : str) (wait_until : option str)
| Wait_for_load_state (state : str)
| Wait_for_function (expression : str) (timeout : N)
| Wait_for_selector (selector : str) (timeout : N)
| Title
| Url
| Click (selector : str) (timeout : N)
| Fill (selector text : str) (timeout : option N)
| Text_content (selector : str) (timeout : option N)
| Is_disabled (selector : str)
| Input_value (selector : str)
| Screenshot (path : str) (full_page : bool)
| Evaluate (code : str)
| Reload
| On (event_name : str)
| Loop_time
| Async_sleep (seconds : nat).

Inductive answer :=
| Returns (v : value)
| Raises (e : exn).

#[global] Instance exn_eq_dec : EqDecision exn.
Proof. solve_decision. Defined.

#[global] Instance answer_eq_dec : EqDecision answer.
Proof. solve_decision. Defined.

(** The environment decides the answer to the [n]-th call of a run. *)
Definition env := nat → call → answer.

(** A browser object is named by the index of the call that created it. *)
Definition handle := nat.

Inductive outcome (A : Type) :=
| Ok (a : A)
| Raise (e : exn).
Arguments Ok {A} a.
Arguments Raise {A} e.

(** The state of a run: the calls made so far with their answers, and
    the mutable object [obj] of the script (its [self]). *)
Record world (S : Type) := {
  calls : list (call * answer);
  obj : S
}.
Arguments calls {S} w.
Arguments obj {S} w.

Definition M (S A : Type) : Type := env → world S → outcome A * world S.

Section Monad.
Context {S : Type}.

#[export] Instance M_ret : MRet (M S) := λ A a _ w, (Ok a, w).

#[export] Instance M_bind : MBind (M S) := λ A B f m e w,
  match m e w with
  | (Ok a, w') => f a e w'
  | (Raise x, w') => (Raise x, w')
  end.

Definition raise {A} (x : exn) : M S A := λ _ w, (Raise x, w).

Definition get : M S S := λ _ w, (Ok (obj w), w).

Definition put (s : S) : M S unit :=
  λ _ w, (Ok tt, {| calls := calls w; obj := s |}).

Definition record (c : call) (a : answer) (w : world S) : world S :=
  {| calls := calls w ++ [(c, a)]; obj := obj w |}.

(** A call whose result the script reads. *)
Definition perform (c : call) : M S value := λ e w,
  let a := e (length (calls w)) c in
  match a with
  | Returns v => (Ok v, record c a w)
  | Raises x => (Raise x, record c a w)
  end.

(** A call that creates a browser object. *)
Definition perform_obj (c : call) : M S handle := λ e w,
  let a := e (length (calls w)) c in
  match a with
  | Returns _ => (Ok (length (calls w)), record c a w)
  | Raises x => (Raise x, record c a w)
  end.

(** [try: body except Exception as e: handler]. *)
Definition try_except {A} (body : M S A) (handler : string → M S A) : M S A :=
  λ e w,
    match body e w with
    | (Raise (Exception what), w') => handler what e w'
    | r => r
    end.

(** [try: body finally: final]: [final] runs on every exit of [body],
    and an exception of [final] replaces the outcome of [body]. *)
Definition try_finally {A} (body : M S A) (final : M S unit) : M S A :=
  λ e w,
    let '(r, w') := body e w in
    match final e w' with
    | (Ok _, w'') => (r, w'')
    | (Raise x, w'') => (Raise x, w'')
    end.

(** [assert cond]. *)
Definition assert_ (cond : bool) : M S unit :=
  if cond then mret tt else raise (Exception "AssertionError").

(** [len(v)]. *)
Definition len (v : value) : M S nat :=
  match v with
  | VStr s => mret (length s)
  | VList items => mret (length items)
  | _ => raise (Exception "TypeError")
  end.

(** [needle in v], for a text [needle]. *)
Definition in_ (needle : str) (v : value) : M S bool :=
  match v with
  | VStr s => mret (contains needle s)
  | VList items => mret (bool_decide (needle ∈ items))
  | _ => raise (Exception "TypeError")
  end.

End Monad.

(** ** Reading a run *)

Definition is_close (c : call) : bool :=
  match c with Browser_close => true | _ => false end.

Definition is_launch (c : call) : bool :=
  match c with Launch _ => true | _ => false end.

Definition is_new_page (c : call) : bool :=
  match c with New_page => true | _ => false end.

Definition returned (a : answer) : bool :=
  match a with Returns _ => true | Raises _ => false end.

(** How many times [browser.close()] was called. *)
Definition close_count (tr : list (call * answer)) : nat :=
  length (List.filter (λ ca, is_close ca.1) tr).

(** A call selected by [sel] was made and returned. *)
Definition succeeded (sel : call → bool) (tr : list (call * answer)) : bool :=
  existsb (λ ca, sel ca.1 && returned ca.2) tr.

(** ** Environments for examples *)

(** A browser in which every step of both scripts succeeds. *)
Definition cooperative : env := λ _ c,
  match c with
  | Title => Returns (VStr (lit "WebRTC PeerJS Chat"))
  | Text_content selector _ =>
      if bool_decide (selector = lit "h1")
      then Returns (VStr (lit "WebRTC PeerJS Chat"))
      else if bool_decide (selector = lit "#my-id")
      then Returns (VStr (lit "0123456789abcdef"))
      else Returns (VStr (lit "42 tests passed"))
  | Is_disabled _ => Returns (VBool true)
  | Input_value selector =>
      if bool_decide (selector = lit "#peer-id-input")
      then Returns (VStr (lit "test-peer-id"))
      else Returns (VStr (lit "Hello, World!"))
  | Evaluate _ => Returns (VList [])
  | _ => Returns VNone
  end.

(** The same browser showing another page: the title differs. *)
Definition wrong_title : env := λ n c,
  match c with
  | Title => Returns (VStr (lit "404 Not Found"))
  | _ => cooperative n c
  end.

(** The same browser, except that the call number [k] raises [x]. *)
Definition failing_at (k : nat) (x : exn) : env := λ n c,
  if bool_decide (n = k) then Raises x else cooperative n c.

(** A browser that starts and shows the right title, and in which
    every other operation fails. *)
Definition only_title_works : env := λ _ c,
  match c with
  | Start_playwright | Launch _ | New_context _ | New_page | Async_sleep _ =>
      Returns VNone
  | Title => Returns (VStr (lit "WebRTC PeerJS Chat"))
  | _ => Raises (Exception "Error")
  end.

(** The computation [m] lets no instance of [Exception] out: it ends
    with a value, or with an exception that is a [BaseException] only. *)
Definition swallows {S A} (m : M S A) : Prop :=
  ∀ e w what, (m e w).1 ≠ Raise (Exception what).

(** The environment [e] never interrupts: no answer of its raises an
    exception that is a [BaseException] only. *)
Definition never_interrupts (e : env) : Prop :=
  ∀ n c what, e n c ≠ Raises (BaseException what).

(** [needle in v] holds; false also when it raises [TypeError]. *)
Definition holds_in (needle : str) (v : value) : bool :=
  match v with
  | VStr s => contains needle s
  | VList items => bool_decide (needle ∈ items)
  | _ => false
  end.

(** [len(v) == n] holds; false also when [len] raises [TypeError]. *)
Definition has_length (n : nat) (v : value) : bool :=
  match v with
  | VStr s => length s =? n
  | VList items => length items =? n
  | _ => false
  end.

(** [len(v)] is defined. *)
Definition is_sized (v : value) : bool :=
  match v with
  | VStr _ | VList _ => true
  | _ => false
  end.

Definition is_ok {A} (r : outcome A) : bool :=
  match r with
  | Ok _ => true
  | Raise _ => false
  end.

(** The computation [m] returns a value and leaves the object as it
    is, in every environment that never interrupts. *)
Definition always_returns {S A} (m : M S A) : Prop :=
  ∀ e w, never_interrupts e → ∃ v w', m e w = (Ok v, w') ∧ obj w' = obj w.

(** The value of an answer; [None] when the call raised. *)
Definition answer_value (a : answer) : value :=
  match a with
  | Returns v => v
  | Raises _ => VNone
  end.

(** The computation [m] keeps the property [Inv] of the state, however
    it ends and whatever the environment answers. *)
Definition preserves {S A} (Inv : world S → Prop) (m : M S A) : Prop :=
  ∀ e w, Inv w → Inv (m e w).2.

End Playwright.

(* ===================================================================== *)
(** * [browser_automation.py] *)
(* ===================================================================== *)

Module BrowserAutomation.
Import PyStr Playwright.

(** The fields of a [BrowserAutomation] object. *)
Record automation := {
  browser : option handle;
  context : option handle;
  page : option handle
}.

(** [BrowserAutomation()]. *)
Definition init : automation :=
  {| browser := None; context := None; page := None |}.

Definition set_browser (b : handle) : M automation unit :=
  self ← get;
  put {| browser := Some b; context := context self; page := page self |}.

Definition set_context (c : handle) : M automation unit :=
  self ← get;
  put {| browser := browser self; context := Some c; page := page self |}.

Definition set_page (p : handle) : M automation unit :=
  self ← get;
  put {| browser := browser self; context := context self; page := Some p |}.

Definition create_session (headless : bool) (viewport_width viewport_height : nat)
  : M automation value :=
  try_except
    (perform_obj Start_playwright;;
     b ← perform_obj (Launch headless);
     set_browser b;;
     c ← perform_obj (New_context (Some (viewport_width, viewport_height)));
     set_context c;;
     p ← perform_obj New_page;
     set_page p;;
     mret (VBool true))
    (λ _, mret (VBool false)).

(** The guard [if not self.page: return failure] that opens every
    interaction method. *)
Definition with_page (failure : value) (body : M automation value)
  : M automation value :=
  self ← get;
  match page self with
  | None => mret failure
  | Some _ => body
  end.

Definition navigate_to_url (url wait_until : str) : M automation value :=
  with_page (VBool false)
    (try_except
       (perform (Goto url (Some wait_until));; mret (VBool true))
       (λ _, mret (VBool false))).

(** [if not path:] holds for [None] and for the empty text: the file is
    then named after the clock of the event loop, whose answer is read as
    the integer [int(...)] makes of it. *)
Definition take_screenshot (path : option str) (full_page : bool)
  : M automation value :=
  with_page (VBool false)
    (try_except
       (path' ← match path with
                | Some (c :: p) => mret (c :: p)
                | _ =>
                    t ← perform Loop_time;
                    mret (lit "screenshot_"
                            ++ match t with
                               | VInt z => lit (pretty z)
                               | _ => []
                               end
                            ++ lit ".png")
                end;
        perform (Screenshot path' full_page);;
        mret (VStr path'))
       (λ _, mret (VBool false))).

Definition get_page_title : M automation value :=
  with_page VNone
    (try_except (perform Title) (λ _, mret VNone)).

Definition get_page_url : M automation value :=
  with_page VNone
    (try_except (perform Url) (λ _, mret VNone)).

Definition click_element (selector : str) (timeout : N) : M automation value :=
  with_page (VBool false)
    (try_except
       (perform (Click selector timeout);; mret (VBool true))
       (λ _, mret (VBool false))).

Definition fill_input (selector text : str) (timeout : N) : M automation value :=
  with_page (VBool false)
    (try_except
       (perform (Fill selector text (Some timeout));; mret (VBool true))
       (λ _, mret (VBool false))).

Definition get_text_content (selector : str) (timeout : N) : M automation value :=
  with_page VNone
    (try_except
       (perform (Text_content selector (Some timeout)))
       (λ _, mret VNone)).

Definition wait_for_selector (selector : str) (timeout : N) : M automation value :=
  with_page (VBool false)
    (try_except
       (perform (Wait_for_selector selector timeout);; mret (VBool true))
       (λ _, mret (VBool false))).

Definition execute_javascript (code : str) : M automation value :=
  with_page VNone
    (try_except (perform (Evaluate code)) (λ _, mret VNone)).

Definition close_session : M automation value :=
  try_except
    (self ← get;
     match browser self with
     | Some _ => perform Browser_close;; mret (VBool true)
     | None => mret (VBool true)
     end)
    (λ _, mret (VBool false)).

Definition deployment_url : str :=
  lit "https://mehrmorgen.github.io/CanChat/chat.html".

(** The script handed to [execute_javascript]: three lines, the middle
    one indented by twelve blanks and the last one made of eight. *)
Definition console_errors_script : str :=
  [10%N] ++ lit "            return window.console.errors || [];"
    ++ [10%N] ++ lit "        ".

(** The steps inside [try:]. *)
Definition test_steps : M automation unit :=
  create_session false 1280 720;;
  navigate_to_url deployment_url (lit "domcontentloaded");;
  wait_for_selector (lit "#my-id") 30000%N;;
  title ← get_page_title;
  assert_ (bool_decide (title = VStr (lit "WebRTC PeerJS Chat")));;
  perform (Async_sleep 3);;
  get_text_content (lit "#my-id") 30000%N;;
  fill_input (lit "#peer-id-input") (lit "test-peer-id") 30000%N;;
  fill_input (lit "#message-input") (lit "Hello, World!") 30000%N;;
  take_screenshot (Some (lit "deployment_test.png")) true;;
  execute_javascript console_errors_script;;
  mret tt.

(** [except Exception as e:]. *)
Definition on_error (what : string) : M automation unit :=
  take_screenshot (Some (lit "deployment_error.png")) true;;
  raise (Exception what).

Definition test_deployment : M automation unit :=
  try_finally
    (try_except test_steps on_error)
    (close_session;; mret tt).

(** One invocation: a fresh object, no call made yet. *)
Definition start : world automation := {| calls := []; obj := init |}.

(** No [close] call was made, the object holds a browser exactly when
    a launch has returned, and a page was created only after that. *)
Definition session_open (w : world automation) : Prop :=
  close_count (calls w) = 0
  ∧ (is_Some (browser (obj w)) ↔ succeeded is_launch (calls w) = true)
  ∧ (succeeded is_new_page (calls w) = true →
     succeeded is_launch (calls w) = true).

(** The same, with a browser in the object. *)
Definition browser_open (w : world automation) : Prop :=
  session_open w ∧ is_Some (browser (obj w)).

(** What [close_session] leaves: the browser closed once if a launch had
    returned and never otherwise, and no page without a launch. *)
Definition closed_once (tr : list (call * answer)) : Prop :=
  close_count tr = (if succeeded is_launch tr then 1 else 0)
  ∧ (succeeded is_new_page tr = true → succeeded is_launch tr = true).

(** The help text of the [__main__] block. *)
Definition usage : list string :=
  [ "Browser Automation Tool";
    "Usage:";
    "  python browser_automation.py test    # Test deployment";
    "  python browser_automation.py         # Show this help" ].

(** The [__main__] block: what it prints of the help text, after
    whatever it ran.  [argv] is [sys.argv], the script name first.  The
    block is reached only when the import of Playwright at the top of the
    file has succeeded. *)
Definition main (argv : list str) : M automation (list string) :=
  match argv with
  | _ :: mode :: _ =>
      if bool_decide (mode = lit "test") then test_deployment;; mret []
      else mret usage
  | _ => mret usage
  end.

End BrowserAutomation.

(* ===================================================================== *)
(** * [test_deployment.py]: the interactive checker *)
(* ===================================================================== *)

Module TestDeployment.
Import PyStr Playwright.

Definition deployment_url : str :=
  lit "https://mehrmorgen.github.io/CanChat/chat.html".

(** The steps inside [try:]. *)
Definition test_steps : M unit unit :=
  perform (Goto deployment_url None);;
  perform (Wait_for_load_state (lit "networkidle"));;
  title ← perform Title;
  assert_ (bool_decide (title = VStr (lit "WebRTC PeerJS Chat")));;
  heading ← perform (Text_content (lit "h1") None);
  in_heading ← in_ (lit "WebRTC PeerJS Chat") heading;
  assert_ in_heading;;
  perform (Wait_for_function
             (lit "document.getElementById('my-id').textContent !== 'Connecting...'")
             10000%N);;
  peer_id ← perform (Text_content (lit "#my-id") None);
  n ← len peer_id;
  assert_ (n =? 16);;
  is_disabled ← perform (Is_disabled (lit "#send-btn"));
  assert_ (truthy is_disabled);;
  perform (Fill (lit "#peer-id-input") (lit "test-peer-id") None);;
  input_value ← perform (Input_value (lit "#peer-id-input"));
  assert_ (bool_decide (input_value = VStr (lit "test-peer-id")));;
  perform (Fill (lit "#message-input") (lit "Hello, World!") None);;
  message_value ← perform (Input_value (lit "#message-input"));
  assert_ (bool_decide (message_value = VStr (lit "Hello, World!")));;
  perform (Wait_for_selector (lit "#test-output") 5000%N);;
  test_output ← perform (Text_content (lit "#test-output") None);
  len test_output;;
  perform (Screenshot (lit "deployment_test.png") false);;
  perform (On (lit "pageerror"));;
  perform (Async_sleep 2);;
  perform (On (lit "response"));;
  perform Reload;;
  perform (Wait_for_load_state (lit "networkidle"));;
  mret tt.

(** [except Exception as e:]. *)
Definition on_error (what : string) : M unit unit :=
  perform (Screenshot (lit "deployment_error.png") false);;
  raise (Exception what).

(** The body of [async with async_playwright() as p:]. *)
Definition with_playwright : M unit unit :=
  perform_obj (Launch false);;
  perform_obj (New_context None);;
  perform_obj New_page;;
  try_finally
    (try_except test_steps on_error)
    (perform Browser_close;; mret tt).

Definition test_deployment : M unit unit :=
  perform_obj Start_playwright;;
  try_finally with_playwright (perform Stop_playwright;; mret tt).

Definition start : world unit := {| calls := []; obj := tt |}.

(** The page was created, and no [close] call was made. *)
Definition session_open (w : world unit) : Prop :=
  close_count (calls w) = 0 ∧ succeeded is_new_page (calls w) = true.

(** ** When the test passes

    The conditions under which a run completes normally, in the order
    in which the script meets them: each call returns, and each assertion
    holds on the answers.  The number before a call is its position in
    the run. *)

Definition session_starts (e : env) : bool :=
  forallb id
    [ returned (e 0 Start_playwright);
      returned (e 1 (Launch false));
      returned (e 2 (New_context None));
      returned (e 3 New_page) ].

Definition steps_pass (e : env) : bool :=
  forallb id
    [ returned (e 4 (Goto deployment_url None));
      returned (e 5 (Wait_for_load_state (lit "networkidle")));
      returned (e 6 Title);
      bool_decide (answer_value (e 6 Title) = VStr (lit "WebRTC PeerJS Chat"));
      returned (e 7 (Text_content (lit "h1") None));
      holds_in (lit "WebRTC PeerJS Chat")
               (answer_value (e 7 (Text_content (lit "h1") None)));
      returned
        (e 8 (Wait_for_function
                (lit "document.getElementById('my-id').textContent !== 'Connecting...'")
                10000));
      returned (e 9 (Text_content (lit "#my-id") None));
      has_length 16 (answer_value (e 9 (Text_content (lit "#my-id") None)));
      returned (e 10 (Is_disabled (lit "#send-btn")));
      truthy (answer_value (e 10 (Is_disabled (lit "#send-btn"))));
      returned (e 11 (Fill (lit "#peer-id-input") (lit "test-peer-id") None));
      returned (e 12 (Input_value (lit "#peer-id-input")));
      bool_decide (answer_value (e 12 (Input_value (lit "#peer-id-input")))
                   = VStr (lit "test-peer-id"));
      returned (e 13 (Fill (lit "#message-input") (lit "Hello, World!") None));
      returned (e 14 (Input_value (lit "#message-input")));
      bool_decide (answer_value (e 14 (Input_value (lit "#message-input")))
                   = VStr (lit "Hello, World!"));
      returned (e 15 (Wait_for_selector (lit "#test-output") 5000));
      returned (e 16 (Text_content (lit "#test-output") None));
      is_sized (answer_value (e 16 (Text_content (lit "#test-output") None)));
      returned (e 17 (Screenshot (lit "deployment_test.png") false));
      returned (e 18 (On (lit "pageerror")));
      returned (e 19 (Async_sleep 2));
      returned (e 20 (On (lit "response")));
      returned (e 21 Reload);
      returned (e 22 (Wait_for_load_state (lit "networkidle"))) ].

Definition session_ends (e : env) : bool :=
  returned (e 23 Browser_close) && returned (e 24 Stop_playwright).

Definition passes (e : env) : bool :=
  session_starts e && steps_pass e && session_ends e.

End TestDeployment.

(* ===================================================================== *)
(** * [test_https_server.py] *)
(* ===================================================================== *)

Module TestHttpsServer.
Import PyStr.

(** The working directory: the files that exist, with their contents. *)
Abbreviation directory := (gmap string string).

(** What [subprocess.run(openssl ..., check=True)] does. *)
Inductive openssl_result :=
| Generated (key cert : string)
| Called_process_error
| File_not_found
| Other_error (e : string).

(** The console output: one constructor for each run of consecutive
    [print] statements. *)
Inductive line :=
| Cert_files_exist
| Creating_cert
| Cert_created
| Cert_create_failed
| Openssl_not_found
| Invalid_port
| Banner
| Server_started (port : Z)
| Server_stopped.

Inductive event :=
| Print (l : line)
| Run_openssl (args : list string)
| Load_cert_chain (cert_file key_file : string)
| Bind (port : Z)
| Wrap_socket
| Serve_forever.

#[global] Instance line_eq_dec : EqDecision line.
Proof. solve_decision. Defined.

#[global] Instance event_eq_dec : EqDecision event.
Proof. solve_decision. Defined.

(** How a function of the script ends: it returns, it calls
    [sys.exit], or an exception leaves it. *)
Inductive result (A : Type) :=
| Returned (a : A)
| Sys_exit (code : Z)
| Uncaught (e : string).
Arguments Returned {A} a.
Arguments Sys_exit {A} code.
Arguments Uncaught {A} e.

Definition cert_file : string := "localhost.crt".
Definition key_file : string := "localhost.key".

Definition openssl_args : list string :=
  [ "openssl"; "req"; "-x509"; "-newkey"; "rsa:2048";
    "-keyout"; key_file; "-out"; cert_file; "-days"; "30"; "-nodes";
    "-subj"; "/CN=localhost" ].

(** [os.path.exists(path)]. *)
Definition exists_ (files : directory) (path : string) : bool :=
  bool_decide (is_Some (files !! path)).

Definition create_self_signed_cert (files : directory) (openssl : openssl_result)
  : result (string * string) * directory * list event :=
  if exists_ files cert_file && exists_ files key_file then
    (Returned (cert_file, key_file), files, [Print Cert_files_exist])
  else
    let started := [Print Creating_cert; Run_openssl openssl_args] in
    match openssl with
    | Generated key cert =>
        (Returned (cert_file, key_file),
         <[cert_file := cert]> (<[key_file := key]> files),
         started ++ [Print Cert_created])
    | Called_process_error =>
        (Sys_exit 1, files, started ++ [Print Cert_create_failed])
    | File_not_found =>
        (Sys_exit 1, files, started ++ [Print Openssl_not_found])
    | Other_error e =>
        (Uncaught e, files, started)
    end.

(** Everything [start_https_server] depends on: the directory, the
    [openssl] tool, and the errors (if any) of loading the certificate,
    of binding the port and of wrapping the socket. *)
Record environment := {
  files : directory;
  openssl : openssl_result;
  load_error : option string;
  bind_error : Z → option string;
  wrap_error : option string
}.

(** The server runs until it is interrupted from the keyboard; the
    events end with that interrupt. *)
Definition start_https_server (port : Z) (e : environment)
  : result unit * directory * list event :=
  match create_self_signed_cert (files e) (openssl e) with
  | (Returned (cert, key), files', ev) =>
      let ev := ev ++ [Load_cert_chain cert key] in
      match load_error e with
      | Some x => (Uncaught x, files', ev)
      | None =>
          let ev := ev ++ [Bind port] in
          match bind_error e port with
          | Some x => (Uncaught x, files', ev)
          | None =>
              let ev := ev ++ [Wrap_socket] in
              match wrap_error e with
              | Some x => (Uncaught x, files', ev)
              | None =>
                  (Returned tt, files',
                   ev ++ [Print (Server_started port); Serve_forever;
                          Print Server_stopped])
              end
          end
      end
  | (Sys_exit code, files', ev) => (Sys_exit code, files', ev)
  | (Uncaught x, files', ev) => (Uncaught x, files', ev)
  end.

Section Main.

(** Python's [int] on a text: the number, or [None] for [ValueError]. *)
Variable int : str → option Z.

(** The port the [__main__] block chooses from [sys.argv]. *)
Definition choose_port (argv : list str) : Z * list event :=
  match argv with
  | _ :: arg :: _ =>
      match int arg with
      | Some port => (port, [])
      | None => (8443%Z, [Print Invalid_port])
      end
  | _ => (8443%Z, [])
  end.

Definition main (argv : list str) (e : environment)
  : result unit * directory * list event :=
  let '(port, ev) := choose_port argv in
  let '(r, files', ev') := start_https_server port e in
  (r, files', ev ++ [Print Banner] ++ ev').

End Main.

(** The ports bound during a run. *)
Definition bound_ports (ev : list event) : list Z :=
  omap (λ x, match x with Bind port => Some port | _ => None end) ev.

(** The port the server was bound to and served on, if it got there. *)
Definition serving_on (ev : list event) : option Z :=
  if bool_decide (Serve_forever ∈ ev) then head (bound_ports ev) else None.

(** Nothing in [e] keeps the server from starting on [port]: the pair
    exists or [openssl] generates it, and loading, binding and wrapping
    raise nothing. *)
Definition can_serve (e : environment) (port : Z) : Prop :=
  (exists_ (files e) cert_file && exists_ (files e) key_file = true
   ∨ ∃ key cert, openssl e = Generated key cert)
  ∧ load_error e = None
  ∧ bind_error e port = None
  ∧ wrap_error e = None.

(** An environment without the pair and without the [openssl] tool. *)
Definition no_openssl : environment :=
  {| files := ∅;
     openssl := File_not_found;
     load_error := None;
     bind_error := λ _, None;
     wrap_error := None |}.

(** An environment in which everything works and the pair exists. *)
Definition ready : environment :=
  {| files := {[ cert_file := "CERT"; key_file := "KEY" ]};
     openssl := File_not_found;
     load_error := None;
     bind_error := λ _, None;
     wrap_error := None |}.

End TestHttpsServer.

(* ===================================================================== *)
(** * The command lines of the scripts *)
(* ===================================================================== *)

Module Cli.
Import PyStr.

(** The seven scripts of the repository. *)
Inductive script :=
| Browser_automation
| Deploy_and_test
| Quick_deploy_test
| Test_deployment
| Test_deployment_simple
| Test_deployment_uvx
| Test_https_server.


Section Dispatch.
Variable int : str → option Z.

(** Whether [import playwright] succeeds.  [browser_automation.py] guards
    the import (it prints how to install the package and exits with
    status 1); [test_deployment.py] imports it unguarded. *)
Variable playwright_installed : bool.


End Dispatch.



End Cli.

(* ===================================================================== *)
(** * [quick_deploy_test.py]: the short workflow *)
(* ===================================================================== *)

Module QuickDeployTest.
Import PyStr.

(** The exceptions of [subprocess.run]: all are subclasses of
    [Exception]. *)
Inductive exn :=
| Timeout_expired
| Other_exception (text : string).

(** What [subprocess.run(argv, capture_output=True, text=True,
    timeout=30)] does. *)
Inductive run_result :=
| Completed (returncode : Z)
| Raised (e : exn).

(** The messages given to [log], one constructor per text. *)
Inductive message :=
| Starting
| Waiting
| Testing_http
| Http_passed
| Http_failed
| Taking_screenshot
| Screenshot_passed
| Screenshot_saved
| Screenshot_failed
| All_passed
| Error (e : exn).

Inductive event :=
| Log (m : message)
| Sleep (seconds : nat)
| Subprocess_run (argv : list string).

#[global] Instance exn_eq_dec : EqDecision exn.
Proof. solve_decision. Defined.

#[global] Instance message_eq_dec : EqDecision message.
Proof. solve_decision. Defined.

#[global] Instance event_eq_dec : EqDecision event.
Proof. solve_decision. Defined.

(** How [main] ends: it returns, or an exception leaves it. *)
Inductive ending :=
| Return (success : bool)
| Exception (e : exn).

Definition http_command : list string :=
  ["python3"; "test_deployment_simple.py"].

Definition screenshot_command : list string :=
  [ "uvx"; "--from"; "playwright"; "playwright"; "screenshot";
    "https://mehrmorgen.github.io/CanChat/chat.html";
    "deployment_validation.png" ].

Section Workflow.
Variable subprocess_run : list string → run_result.

Definition main : ending * list event :=
  let ev :=
    [ Log Starting; Log Waiting; Sleep 30; Log Testing_http;
      Subprocess_run http_command ] in
  match subprocess_run http_command with
  | Completed returncode =>
      if (returncode =? 0)%Z then
        let ev :=
          ev ++ [ Log Http_passed; Log Taking_screenshot;
                  Subprocess_run screenshot_command ] in
        match subprocess_run screenshot_command with
        | Completed returncode =>
            if (returncode =? 0)%Z then
              (Return true,
               ev ++ [Log Screenshot_passed; Log Screenshot_saved; Log All_passed])
            else (Return false, ev ++ [Log Screenshot_failed])
        | Raised e => (Exception e, ev)
        end
      else (Return false, ev ++ [Log Http_failed])
  | Raised e => (Exception e, ev)
  end.

(** The [__main__] block: the exit status and everything done. *)
Definition script : Z * list event :=
  match main with
  | (Return success, ev) => ((if success then 0 else 1)%Z, ev)
  | (Exception e, ev) => (1%Z, ev ++ [Log (Error e)])
  end.

End Workflow.

(** The command lines run, in order. *)
Definition commands_run (ev : list event) : list (list string) :=
  omap (λ x, match x with Subprocess_run argv => Some argv | _ => None end) ev.

(** The seconds slept before the first command. *)
Fixpoint slept_before_first_command (ev : list event) : nat :=
  match ev with
  | [] => 0
  | Sleep n :: ev' => n + slept_before_first_command ev'
  | Subprocess_run _ :: _ => 0
  | _ :: ev' => slept_before_first_command ev'
  end.

(** The run exited with status 0. *)
Definition exited_zero (r : run_result) : bool :=
  match r with
  | Completed returncode => (returncode =? 0)%Z
  | _ => false
  end.

(** An environment in which both commands succeed. *)
Definition all_succeed : list string → run_result := λ _, Completed 0.

End QuickDeployTest.

(* ===================================================================== *)
(** * [test_deployment_uvx.py]: checks through the [playwright] command *)
(* ===================================================================== *)

Module TestDeploymentUvx.
Import PyStr.

(** What [subprocess.run(cmd, capture_output=..., text=True, timeout=30)]
    does; [Raised e] carries [str(e)]. *)
Inductive run_result :=
| Completed (returncode : Z) (stdout stderr : str)
| Timeout_expired
| Raised (e : str).

(** What [subprocess.Popen(cmd, ...)] followed by [process.terminate()]
    does: [Popen] raises, or the process starts and [terminate] raises
    or returns. *)
Inductive popen_result :=
| Popen_failed (e : str)
| Started (terminate_error : option str).

(** What [input(prompt)] does. *)
Inductive input_result :=
| Line (text : str)
| Keyboard_interrupt
| Eof_error.

(** The console output, one constructor per [print] or run of
    consecutive [print]s. *)
Inductive line :=
| Command_timed_out
| Command_failed (e : str)
| Testing_deployment
| Taking_screenshot
| Screenshot_captured
| Screenshot_failed (stderr : str)
| Generating_pdf
| Pdf_generated
| Pdf_failed (stderr : str)
| Testing_interactivity
| Interactivity_completed
| Interactivity_skipped (e : str)
| Validation_completed
| Validating_files
| File_found (path : string) (size : N)
| File_not_found (path : string)
| Opening_browser
| Browser_test_completed
| Browser_test_failed (e : str)
| Banner
| All_tests_passed
| Test_completed
| Files_not_generated
| Deployment_test_failed.

Inductive event :=
| Print (l : line)
| Subprocess_run (cmd : list string)
| Popen (cmd : list string)
| Sleep (seconds : nat)
| Terminate
| Input.

#[global] Instance line_eq_dec : EqDecision line.
Proof. solve_decision. Defined.

#[global] Instance event_eq_dec : EqDecision event.
Proof. solve_decision. Defined.

(** How the script ends: with an exit status, or with an exception that
    nothing catches. *)
Inductive ending :=
| Exit (code : Z)
| Uncaught (e : string).

Definition url : string := "https://mehrmorgen.github.io/CanChat/chat.html".

Definition uvx : list string := ["uvx"; "--from"; "playwright"; "playwright"].

Definition screenshot_args : list string :=
  ["screenshot"; url; "deployment_test_uvx.png"].

Definition pdf_args : list string := ["pdf"; url; "deployment_test_uvx.pdf"].

Definition codegen_command : list string := uvx ++ ["codegen"; url].

Definition browser_command : list string := uvx ++ ["cr"; url].

Definition files_to_check : list string :=
  ["deployment_test_uvx.png"; "deployment_test_uvx.pdf"].

Section Script.

(** The environment: what running a command gives, what starting a
    background process gives, the size of each file that exists, the
    answer typed at the prompt, and [str.lower]. *)
Variable subprocess_run : list string → run_result.
Variable popen : list string → popen_result.
Variable stat : string → option N.
Variable input : input_result.
Variable lower : str → str.

Definition run_uvx_command (command_args : list string)
  : (bool * str * str) * list event :=
  let cmd := uvx ++ command_args in
  match subprocess_run cmd with
  | Completed returncode stdout stderr =>
      (((returncode =? 0)%Z, stdout, stderr), [Subprocess_run cmd])
  | Timeout_expired =>
      ((false, [], lit "Timeout"), [Subprocess_run cmd; Print Command_timed_out])
  | Raised e =>
      ((false, [], e), [Subprocess_run cmd; Print (Command_failed e)])
  end.

(** [Popen(cmd); time.sleep(seconds); process.terminate()] inside a
    [try]: the exception it ends with, if any. *)
Definition in_background (cmd : list string) (seconds : nat)
  : option str * list event :=
  match popen cmd with
  | Popen_failed e => (Some e, [Popen cmd])
  | Started terminate_error =>
      (terminate_error, [Popen cmd; Sleep seconds; Terminate])
  end.

Definition test_deployment_with_uvx : bool * list event :=
  let ev := [Print Testing_deployment; Print Taking_screenshot] in
  let '((success, _, stderr), ev1) := run_uvx_command screenshot_args in
  if success then
    let ev := ev ++ ev1 ++ [Print Screenshot_captured; Print Generating_pdf] in
    let '((success, _, stderr), ev2) := run_uvx_command pdf_args in
    let ev :=
      ev ++ ev2
         ++ [Print (if success then Pdf_generated else Pdf_failed stderr);
             Print Testing_interactivity] in
    let '(error, ev3) := in_background codegen_command 3 in
    (true,
     ev ++ ev3
        ++ [Print (match error with
                   | None => Interactivity_completed
                   | Some e => Interactivity_skipped e
                   end);
            Print Validation_completed])
  else (false, ev ++ ev1 ++ [Print (Screenshot_failed stderr)]).

(** The loop of [validate_deployment_files] over the remaining paths,
    with [all_exist] as it stands. *)
Fixpoint validate_files (paths : list string) (all_exist : bool)
  : bool * list event :=
  match paths with
  | [] => (all_exist, [])
  | file_path :: paths' =>
      match stat file_path with
      | Some size =>
          let '(r, ev) := validate_files paths' all_exist in
          (r, Print (File_found file_path size) :: ev)
      | None =>
          let '(r, ev) := validate_files paths' false in
          (r, Print (File_not_found file_path) :: ev)
      end
  end.

Definition validate_deployment_files : bool * list event :=
  let '(all_exist, ev) := validate_files files_to_check true in
  (all_exist, Print Validating_files :: ev).

Definition quick_browser_test : bool * list event :=
  let '(error, ev) := in_background browser_command 5 in
  match error with
  | None => (true, [Print Opening_browser] ++ ev ++ [Print Browser_test_completed])
  | Some e => (false, [Print Opening_browser] ++ ev ++ [Print (Browser_test_failed e)])
  end.

(** [response in ['y', 'yes']]. *)
Definition is_yes (response : str) : bool :=
  bool_decide (response ∈ [lit "y"; lit "yes"]).

(** The [__main__] block. *)
Definition script : ending * list event :=
  let '(success, ev) := test_deployment_with_uvx in
  let ev := Print Banner :: ev in
  if success then
    let '(files_valid, ev1) := validate_deployment_files in
    let ev := ev ++ ev1 in
    if files_valid then
      let ev := ev ++ [Print All_tests_passed; Input] in
      match input with
      | Line text =>
          if is_yes (lower (strip text))
          then (Exit 0, ev ++ quick_browser_test.2)
          else (Exit 0, ev)
      | Keyboard_interrupt => (Exit 0, ev ++ [Print Test_completed])
      | Eof_error => (Uncaught "EOFError", ev)
      end
    else (Exit 0, ev ++ [Print Files_not_generated])
  else (Exit 1, ev ++ [Print Deployment_test_failed]).

End Script.

(** The commands run to completion, in order. *)
Definition commands_run (ev : list event) : list (list string) :=
  omap (λ x, match x with Subprocess_run cmd => Some cmd | _ => None end) ev.

(** The background processes started, in order. *)
Definition processes_started (ev : list event) : list (list string) :=
  omap (λ x, match x with Popen cmd => Some cmd | _ => None end) ev.

(** The lines about files printed by the validation. *)
Definition file_lines (ev : list event) : list event :=
  List.filter (λ x, match x with
                    | Print (File_found _ _) | Print (File_not_found _) => true
                    | _ => false
                    end) ev.

(** The run exited with status 0. *)
Definition exited_zero (r : run_result) : bool :=
  match r with
  | Completed returncode _ _ => (returncode =? 0)%Z
  | _ => false
  end.

(** The screenshot command exited with status 0. *)
Definition screenshot_ok (subprocess_run : list string → run_result) : bool :=
  exited_zero (subprocess_run (uvx ++ screenshot_args)).

(** [Path(path).exists()]. *)
Definition exists_ (stat : string → option N) (path : string) : bool :=
  bool_decide (is_Some (stat path)).

(** The line the validation prints for a file. *)
Definition file_line (stat : string → option N) (path : string) : event :=
  Print (match stat path with
         | Some size => File_found path size
         | None => File_not_found path
         end).

Definition is_eof (input : input_result) : bool :=
  match input with Eof_error => true | _ => false end.

(** The answer typed at the prompt is [y] or [yes], in any case and
    with any white space around it. *)
Definition answered_yes (lower : str → str) (input : input_result) : bool :=
  match input with
  | Line text => bool_decide (lower (strip text) ∈ [lit "y"; lit "yes"])
  | _ => false
  end.

(** Lower case for the letters A to Z; other characters stay. *)
Definition ascii_lower (s : str) : str :=
  map (λ c, if ((65 <=? c) && (c <=? 90))%N then (c + 32)%N else c) s.

(** The screenshot works, the PDF command fails, and only the
    screenshot file exists. *)
Definition pdf_fails (cmd : list string) : run_result :=
  if bool_decide (cmd = uvx ++ screenshot_args)
  then Completed 0 [] []
  else Completed 1 [] (lit "no pdf").

Definition only_screenshot (path : string) : option N :=
  if bool_decide (path = "deployment_test_uvx.png") then Some 1024%N else None.

End TestDeploymentUvx.

(* ===================================================================== *)
(** * Properties of the string functions *)
(* ===================================================================== *)

Module PyStrFacts.
Import PyStr.

Lemma startswith_app p s : startswith p (p ++ s) = true.
Proof.
  induction p as [|a p IH]; simpl; [done|].
  by rewrite N.eqb_refl, IH.
Qed.

Lemma startswith_inv p s :
  startswith p s = true -> exists t, s = p ++ t.
Proof.
  revert s. induction p as [|a p IH]; intros s H.
  - by exists s.
  - destruct s as [|b s]; simpl in H; [done|].
    apply andb_true_iff in H as [Hab Hps].
    apply N.eqb_eq in Hab as ->.
    destruct (IH _ Hps) as [t ->]. by exists t.
Qed.

Lemma startswith_contains p s :
  startswith p s = true -> contains p s = true.
Proof. intros H. destruct s; simpl; by rewrite H. Qed.

(** [contains] is Python's substring relation. *)
Lemma contains_spec needle hay :
  contains needle hay = true <->
  exists pre post, hay = pre ++ needle ++ post.
Proof.
  split.
  - induction hay as [|c hay IH]; simpl; intros H.
    + rewrite orb_false_r in H.
      apply startswith_inv in H as [t ->]. by exists [], t.
    + apply orb_true_iff in H as [H|H].
      * apply startswith_inv in H as [t ->]. by exists [], t.
      * destruct (IH H) as (pre & post & ->). by exists (c :: pre), post.
  - intros (pre & post & ->).
    induction pre as [|c pre IH].
    + rewrite app_nil_l. apply startswith_contains, startswith_app.
    + simpl. rewrite IH. apply orb_true_r.
Qed.

Lemma contains_cons needle c hay :
  contains needle hay = true -> contains needle (c :: hay) = true.
Proof. intros H. simpl. rewrite H. apply orb_true_r. Qed.

Lemma match_http_contains s m :
  match_http s = Some m -> contains http_prefix s = true.
Proof.
  unfold match_http. destruct (startswith http_prefix s) eqn:E; [|done].
  intros _. destruct s; simpl in *; [done|]. by rewrite E.
Qed.

(** A match always starts with the literal [http://]. *)
Lemma match_http_prefix s m :
  match_http s = Some m -> startswith http_prefix m = true.
Proof.
  unfold match_http. destruct (startswith http_prefix s); [|done].
  destruct (span_while _ _) as [|c run]; [done|].
  intros H. assert (m = http_prefix ++ c :: run) as -> by congruence.
  apply startswith_app.
Qed.

Lemma findall_http_from_nil skip s :
  contains http_prefix s = false -> findall_http_from skip s = [].
Proof.
  revert skip. induction s as [|c s IH]; intros skip H; [done|].
  pose proof H as H'. simpl in H'. apply orb_false_iff in H' as [_ Hs].
  simpl. destruct skip; [|by apply IH].
  destruct (match_http (c :: s)) eqn:E.
  - apply match_http_contains in E. congruence.
  - by apply IH.
Qed.

(** A body without the literal [http://] has no match. *)
Lemma findall_http_nil s :
  contains http_prefix s = false -> findall_http s = [].
Proof. apply findall_http_from_nil. Qed.

End PyStrFacts.

(* ===================================================================== *)
(** * The static-content checker *)
(* ===================================================================== *)

Module TestDeploymentSimpleFacts.
Import PyStr PyStrFacts TestDeploymentSimple.

(** ** Sequencing *)

Lemma run_bind_next {A} out (a : A) (k : A → prog Empty_set) :
  run ((out, Next a) ≫= k) = ((run (k a)).1, out ++ (run (k a)).2).
Proof.
  unfold mbind, prog_bind. destruct (k a) as [out' [[]|b]]. reflexivity.
Qed.

Lemma run_bind_return {A} out b (k : A → prog Empty_set) :
  run ((out, Return b) ≫= k) = (b, out).
Proof. reflexivity. Qed.

Lemma run_print l (k : unit → prog Empty_set) :
  run (print l ≫= k) = ((run (k tt)).1, l :: (run (k tt)).2).
Proof. unfold print. by rewrite run_bind_next. Qed.

Lemma check_marker_present found missing content m :
  contains m content = true →
  check_marker found missing content m = print (found m).
Proof. unfold check_marker, require. by intros ->. Qed.

Lemma check_marker_absent found missing content m :
  contains m content = false →
  check_marker found missing content m = ([missing m], Return false).
Proof. unfold check_marker, require. by intros ->. Qed.

(** A marker loop either finds every marker and goes on, or stops at
    the first one that is absent. *)
Lemma for_each_all_found found missing content ms :
  forallb (λ m, contains m content) ms = true →
  for_each ms (check_marker found missing content) = (map found ms, Next tt).
Proof.
  induction ms as [|m ms IH]; cbn [for_each forallb map]; intros H; [done|].
  apply andb_true_iff in H as [Hm Hms].
  rewrite (check_marker_present _ _ _ _ Hm), (IH Hms). reflexivity.
Qed.

Lemma for_each_first_missing found missing content pre m post :
  forallb (λ m, contains m content) pre = true →
  contains m content = false →
  for_each (pre ++ m :: post) (check_marker found missing content)
  = (map found pre ++ [missing m], Return false).
Proof.
  induction pre as [|x pre IH]; cbn [for_each forallb map app];
    intros Hpre Hm.
  - by rewrite (check_marker_absent _ _ _ _ Hm).
  - apply andb_true_iff in Hpre as [Hx Hpre].
    rewrite (check_marker_present _ _ _ _ Hx), (IH Hpre Hm). reflexivity.
Qed.

Lemma forallb_false_split {A} (P : A → bool) (l : list A) :
  forallb P l = false →
  ∃ pre x post, l = pre ++ x :: post ∧ forallb P pre = true ∧ P x = false.
Proof.
  induction l as [|a l IH]; simpl; intros H; [done|].
  destruct (P a) eqn:Ha; simpl in H.
  - destruct (IH H) as (pre & x & post & -> & Hpre & Hx).
    exists (a :: pre), x, post. simpl. by rewrite Ha, Hpre.
  - by exists [], a, l.
Qed.

Lemma prog_bind_assoc {A B C} (m : prog A) (f : A → prog B) (g : B → prog C) :
  (m ≫= f) ≫= g = m ≫= (λ a, f a ≫= g).
Proof.
  unfold mbind, prog_bind. destruct m as [out [a|b]]; [|done].
  destruct (f a) as [out1 [a1|b1]]; [|done].
  destruct (g a1) as [out2 r2]. by rewrite (assoc_L (++)).
Qed.

Lemma run_require c ok bad (k : unit → prog Empty_set) :
  run (require c ok bad ≫= k)
  = if c then ((run (k tt)).1, ok :: (run (k tt)).2) else (false, [bad]).
Proof. unfold require. destruct c; [apply run_print | reflexivity]. Qed.

Lemma run_marker_loop_found found missing content ms (k : unit → prog Empty_set) :
  forallb (λ m, contains m content) ms = true →
  run (for_each ms (check_marker found missing content) ≫= k)
  = ((run (k tt)).1, map found ms ++ (run (k tt)).2).
Proof. intros H. by rewrite (for_each_all_found _ _ _ _ H), run_bind_next. Qed.

Lemma run_marker_loop_missing found missing content pre m post
    (k : unit → prog Empty_set) :
  forallb (λ m, contains m content) pre = true →
  contains m content = false →
  run (for_each (pre ++ m :: post) (check_marker found missing content) ≫= k)
  = (false, map found pre ++ [missing m]).
Proof.
  intros Hpre Hm. by rewrite (for_each_first_missing _ _ _ _ _ _ Hpre Hm).
Qed.

(** Test 5 never leaves the function. *)
Lemma for_each_print {A} (f : A → line) (xs : list A) :
  for_each xs (λ x, print (f x)) = (map f xs, Next tt).
Proof.
  induction xs as [|x xs IH]; cbn [for_each map]; [done|].
  rewrite IH. reflexivity.
Qed.

Lemma check_http_resources_next content :
  check_http_resources content = (http_report (findall_http content), Next tt).
Proof.
  unfold check_http_resources, http_report, warning_lines.
  destruct (findall_http content) as [|r rs] eqn:E; [done|].
  rewrite for_each_print. reflexivity.
Qed.

Lemma warnings_http_report found :
  warnings (http_report found) = warning_lines found.
Proof.
  destruct found as [|r rs]; [done|].
  unfold http_report, warning_lines, warnings. cbn [List.filter is_warning].
  f_equal. induction (r :: rs) as [|x xs IH]; [done|].
  cbn [map List.filter is_warning]. by rewrite IH.
Qed.

Lemma warnings_app out out' : warnings (out ++ out') = warnings out ++ warnings out'.
Proof. apply List.filter_app. Qed.

Lemma warnings_map_nil {A} (f : A → line) xs :
  (∀ x, is_warning (f x) = false) → warnings (map f xs) = [].
Proof.
  intros H. induction xs as [|x xs IH]; [done|].
  cbn [map]. unfold warnings in *. cbn [List.filter]. by rewrite H.
Qed.

Lemma missing_reports_app out out' :
  missing_reports (out ++ out') = missing_reports out ++ missing_reports out'.
Proof. apply List.filter_app. Qed.

Lemma missing_reports_map_nil {A} (f : A → line) xs :
  (∀ x, is_missing_report (f x) = false) → missing_reports (map f xs) = [].
Proof.
  intros H. induction xs as [|x xs IH]; [done|].
  cbn [map]. unfold missing_reports in *. cbn [List.filter]. by rewrite H.
Qed.

Lemma missing_reports_http_report found :
  missing_reports (http_report found) = [].
Proof.
  destruct found as [|r rs]; [done|].
  unfold http_report, warning_lines, missing_reports.
  cbn [List.filter is_missing_report].
  by apply (missing_reports_map_nil Http_resource).
Qed.

(** The checker on a fetched body is [check_content] after three lines. *)
Lemma static_check_unfold content :
  static_check content
  = ((run (check_content content)).1,
     [Testing_deployment; Testing_connectivity; Accessible]
       ++ (run (check_content content)).2).
Proof.
  unfold static_check, test_deployment_simple.
  rewrite !run_print. cbn [fst snd].
  change (200 =? 200)%Z with true. cbv iota.
  rewrite run_print. reflexivity.
Qed.

(** Counting the reports and the warnings of an output given as a
    concatenation. *)
Ltac tally :=
  unfold missing_reports, warnings;
  repeat first
    [ rewrite List.filter_app
    | rewrite (missing_reports_map_nil Found) by done
    | rewrite (missing_reports_map_nil Feature_found) by done
    | rewrite (warnings_map_nil Found) by done
    | rewrite (warnings_map_nil Feature_found) by done
    | rewrite missing_reports_http_report
    | rewrite warnings_http_report
    | progress cbn [List.filter is_missing_report is_warning app length] ];
  rewrite ?app_nil_r; try done.

Lemma fail_fast_app checks checks' :
  fail_fast (checks ++ checks')
  = match fail_fast checks with
    | (true, out) =>
        let '(verdict, out') := fail_fast checks' in (verdict, out ++ out')
    | (false, out) => (false, out)
    end.
Proof.
  induction checks as [|c checks IH]; cbn [app fail_fast].
  - by destruct (fail_fast checks').
  - destruct (holds c); [|done]. rewrite IH.
    destruct (fail_fast checks) as [[] out]; [|done].
    by destruct (fail_fast checks').
Qed.

Lemma fail_fast_markers_all found missing content ms :
  forallb (λ m, contains m content) ms = true →
  fail_fast (map (marker_check found missing content) ms) = (true, map found ms).
Proof.
  induction ms as [|m ms IH]; cbn [forallb map fail_fast marker_check holds ok_line];
    intros H; [done|].
  apply andb_true_iff in H as [-> Hms]. by rewrite (IH Hms).
Qed.

Lemma fail_fast_markers_first found missing content pre m post :
  forallb (λ m, contains m content) pre = true →
  contains m content = false →
  fail_fast (map (marker_check found missing content) (pre ++ m :: post))
  = (false, map found pre ++ [missing m]).
Proof.
  intros Hpre Hm. rewrite map_app, fail_fast_app.
  rewrite (fail_fast_markers_all _ _ _ _ Hpre).
  cbn [map fail_fast marker_check holds bad_line]. by rewrite Hm.
Qed.

(** Evaluates [fail_fast_run] with the facts at hand. *)
Ltac expect :=
  unfold fail_fast_run, checks_before_scan, checks_after_scan, preamble;
  repeat match goal with
         | H : required_elements = _ |- _ => rewrite H
         | H : webrtc_features = _ |- _ => rewrite H
         end;
  repeat first
    [ rewrite fail_fast_app
    | rewrite fail_fast_markers_all by assumption
    | rewrite fail_fast_markers_first by assumption
    | progress cbn [fail_fast holds ok_line bad_line app andb]
    | match goal with H : contains _ _ = _ |- _ => rewrite H end ];
  rewrite <- ?(assoc_L (++)); try done.

(** What a run of the checker looks like, in every case. *)
Definition run_spec (content : str) (r : bool * list line) : Prop :=
  r.1 = forallb (λ m, contains m content) all_markers
  ∧ length (missing_reports r.2) = (if r.1 then 0 else 1)
  ∧ warnings r.2
    = (if forallb (λ m, contains m content) markers_before_scan
       then warning_lines (findall_http content) else [])
  ∧ (r.1 = true → r.2 = passing_output content)
  ∧ r = fail_fast_run content.

Lemma static_check_spec content : run_spec content (static_check content).
Proof.
  rewrite static_check_unfold. unfold check_content.
  rewrite run_print. cbn [fst snd].
  unfold run_spec, all_markers, markers_before_scan, passing_output, preamble.
  rewrite !forallb_app. cbn [forallb fst snd].
  destruct (forallb _ required_elements) eqn:E1.
  2:{ destruct (forallb_false_split _ _ E1) as (pre & x & post & Heq & Hpre & Hx).
      rewrite Heq, (run_marker_loop_missing _ _ _ _ _ _ _ Hpre Hx).
      cbn [fst snd andb]. repeat split; try done; first [solve [tally] | expect]. }
  rewrite (run_marker_loop_found _ _ _ _ _ E1). cbn [fst snd andb].
  rewrite run_require.
  destruct (contains peerjs_marker content) eqn:E2; cbn [fst snd andb];
    [| repeat split; try done; first [solve [tally] | expect] ].
  rewrite check_http_resources_next, run_bind_next. cbn [fst snd].
  rewrite run_require.
  destruct (contains browser_detection_marker content) eqn:E3; cbn [fst snd andb];
    [| repeat split; try done; first [solve [tally] | expect] ].
  rewrite run_require.
  destruct (contains describe_marker content) eqn:E4; cbn [fst snd andb];
    [| repeat split; try done; first [solve [tally] | expect] ].
  destruct (contains test_marker content) eqn:E5; cbn [fst snd andb];
    [| repeat split; try done; first [solve [tally] | expect] ].
  destruct (forallb _ webrtc_features) eqn:E6.
  2:{ destruct (forallb_false_split _ _ E6) as (pre & x & post & Heq & Hpre & Hx).
      rewrite Heq, (run_marker_loop_missing _ _ _ _ _ _ _ Hpre Hx).
      cbn [fst snd andb]. repeat split; try done; first [solve [tally] | expect]. }
  rewrite (run_marker_loop_found _ _ _ _ _ E6). cbn [fst snd andb].
  rewrite run_print. cbn [run return_ fst snd].
  repeat split; try done; first [solve [tally] | expect].
Qed.

Lemma static_check_first_missing_element content pre m post :
  required_elements = pre ++ m :: post →
  forallb (λ e, contains e content) pre = true →
  contains m content = false →
  static_check content = (false, preamble content ++ map Found pre ++ [Missing m]).
Proof.
  intros Heq Hpre Hm.
  rewrite static_check_unfold. unfold check_content.
  rewrite run_print, Heq, (run_marker_loop_missing _ _ _ _ _ _ _ Hpre Hm).
  reflexivity.
Qed.

(** C1, as stated, fails on the empty page: the second required element
    is absent from it as well, yet the only marker the checker reports as
    missing is the first one. *)
Lemma empty_page_second_marker_not_reported :
  In (lit "<h1>WebRTC PeerJS Chat</h1>") required_elements
  ∧ contains (lit "<h1>WebRTC PeerJS Chat</h1>") (lit "") = false
  ∧ ¬ In (Missing (lit "<h1>WebRTC PeerJS Chat</h1>")) (static_check (lit "")).2
  ∧ missing_reports (static_check (lit "")).2
    = [Missing (lit "<title>WebRTC PeerJS Chat</title>")].
Proof.
  split; [right; left; reflexivity|].
  split; [reflexivity|].
  split; [|reflexivity].
  vm_compute. intros H. repeat destruct H as [H|H]; congruence.
Qed.

(** C1 (amended).  The checker goes through the tests of its fixed list
    in order and stops at the first one that fails: its run is the
    fail-fast evaluation [fail_fast_run].  Its result is pass exactly
    when every marker is found (the conjunction of all marker tests); a
    failing run reports exactly one marker as missing and a passing run
    none; and when the first absent marker is a required element, the
    output ends with the report of that element, after the elements found
    before it. *)
Theorem static_check_stops_at_first_missing_marker (content : str) :
  static_check content = fail_fast_run content
  ∧ (static_check content).1 = forallb (λ m, contains m content) all_markers
  ∧ length (missing_reports (static_check content).2)
    = (if (static_check content).1 then 0 else 1)
  ∧ ∀ pre m post,
      required_elements = pre ++ m :: post →
      forallb (λ e, contains e content) pre = true →
      contains m content = false →
      static_check content
      = (false, preamble content ++ map Found pre ++ [Missing m]).
Proof.
  destruct (static_check_spec content) as (Hverdict & Hcount & _ & _ & Hrun).
  split; [exact Hrun|]. split; [exact Hverdict|]. split; [exact Hcount|].
  intros pre m post. apply static_check_first_missing_element.
Qed.

Lemma static_check_stops_at_first_missing_marker_witness :
  static_check (lit "<title>WebRTC PeerJS Chat</title>")
  = (false,
     preamble (lit "<title>WebRTC PeerJS Chat</title>")
       ++ map Found [lit "<title>WebRTC PeerJS Chat</title>"]
       ++ [Missing (lit "<h1>WebRTC PeerJS Chat</h1>")]).
Proof.
  refine (proj2 (proj2 (proj2 (static_check_stops_at_first_missing_marker _)))
            [lit "<title>WebRTC PeerJS Chat</title>"] _ _ _ _ _);
    reflexivity.
Defined.



(** The two fixture pages differ in their warnings only. *)
Lemma insecure_page_warns :
  (static_check complete_page).1 = true
  ∧ (static_check insecure_page).1 = true
  ∧ warnings (static_check complete_page).2 = []
  ∧ warnings (static_check insecure_page).2
    = [ Http_resources_found 2;
        Http_resource (lit "http://cdn.example/a.js");
        Http_resource (lit "http://cdn.example/b.css") ].
Proof. by vm_compute. Qed.

(** C5, as stated, fails on the page that holds the nine required
    elements and nothing else: it has no insecure reference, and the
    checker rejects it. *)
Lemma elements_only_page_fails :
  length required_elements = 9
  ∧ forallb (λ m, contains m elements_only_page) required_elements = true
  ∧ contains http_prefix elements_only_page = false
  ∧ static_check elements_only_page
    = (false,
       preamble elements_only_page ++ map Found required_elements
         ++ [PeerJS_missing]).
Proof. by vm_compute. Qed.

(** C5 (amended).  A body that contains every marker the checker looks
    for (the nine required elements, the PeerJS version, the browser
    detection, the two test-framework tokens and the four WebRTC
    features) and no [http://] passes, with no warning. *)
Theorem complete_secure_page_passes (content : str) :
  forallb (λ m, contains m content) all_markers = true →
  contains http_prefix content = false →
  static_check content = (true, passing_output content)
  ∧ findall_http content = []
  ∧ warnings (static_check content).2 = [].
Proof.
  intros Hall Hhttp.
  destruct (static_check_spec content) as (Hverdict & _ & Hwarn & Hout & _).
  rewrite Hall in Hverdict.
  pose proof (findall_http_nil _ Hhttp) as Hnone.
  split; [|split; [exact Hnone|]].
  - specialize (Hout Hverdict).
    destruct (static_check content) as [b out]. cbn [fst snd] in *.
    by subst.
  - rewrite Hwarn, Hnone. by case_match.
Qed.

Lemma complete_secure_page_passes_witness :
  static_check complete_page = (true, passing_output complete_page)
  ∧ findall_http complete_page = []
  ∧ warnings (static_check complete_page).2 = [].
Proof.
  apply (complete_secure_page_passes complete_page); vm_compute; reflexivity.
Defined.

End TestDeploymentSimpleFacts.

(* ===================================================================== *)
(** * The workflow driver and the report *)
(* ===================================================================== *)

Module DeployAndTestFacts.
Import PyStr DeployAndTest.

(** ** The report *)

Lemma sum_ones_length cond results :
  sum_ones cond results = length (List.filter cond results).
Proof.
  unfold sum_ones. induction (List.filter cond results) as [|r rs IH]; [done|].
  simpl in *. by rewrite IH.
Qed.

Lemma critical_failures_count results :
  critical_failures results = count_failed_critical results.
Proof. apply sum_ones_length. Qed.

Lemma generate_test_report_verdict results :
  (generate_test_report results).1 = (count_failed_critical results =? 0).
Proof.
  unfold generate_test_report. rewrite critical_failures_count.
  by destruct (count_failed_critical results =? 0).
Qed.

Lemma count_failed_critical_app l1 l2 :
  count_failed_critical (l1 ++ l2)
  = count_failed_critical l1 + count_failed_critical l2.
Proof.
  unfold count_failed_critical. by rewrite List.filter_app, length_app.
Qed.

Lemma noncritical_failure_not_counted r :
  noncritical_failure r = true → failed_and_critical r = false.
Proof.
  unfold noncritical_failure, failed_and_critical.
  by destruct (success r), (critical r).
Qed.

Lemma count_without_noncritical results :
  count_failed_critical
    (List.filter (λ r, negb (noncritical_failure r)) results)
  = count_failed_critical results.
Proof.
  unfold count_failed_critical.
  induction results as [|r rs IH]; [done|].
  cbn [List.filter].
  destruct (noncritical_failure r) eqn:E; cbn [negb].
  - by rewrite (noncritical_failure_not_counted _ E).
  - cbn [List.filter]. destruct (failed_and_critical r); cbn [length]; by rewrite IH.
Qed.

(** C2.  The report's verdict is true exactly when no result is both
    failed and critical.  Failures that are not critical do not count:
    the verdict stays the same when all of them are taken out of the
    sequence, and when one more is put in at any place. *)
Theorem overall_success_iff_no_critical_failure (results : list result) :
  ((generate_test_report results).1 = true ↔ count_failed_critical results = 0)
  ∧ (generate_test_report
       (List.filter (λ r, negb (noncritical_failure r)) results)).1
    = (generate_test_report results).1
  ∧ ∀ before r,
      noncritical_failure r = true →
      (generate_test_report (before ++ r :: results)).1
      = (generate_test_report (before ++ results)).1.
Proof.
  rewrite !generate_test_report_verdict.
  split; [apply Nat.eqb_eq|].
  split; [by rewrite count_without_noncritical|].
  intros before r Hr. rewrite !generate_test_report_verdict.
  rewrite !count_failed_critical_app.
  change (r :: results) with ([r] ++ results).
  rewrite count_failed_critical_app. unfold count_failed_critical at 2.
  cbn [List.filter]. by rewrite (noncritical_failure_not_counted _ Hr).
Qed.

(** The scenario of the specification: pass, fail, pass. *)
Lemma report_scenario :
  let pass := {| test := "a"; success := true; critical := true |} in
  let fail c := {| test := "b"; success := false; critical := c |} in
  (generate_test_report [pass; fail false; pass]).1 = true
  ∧ (generate_test_report [pass; fail true; pass]).1 = false.
Proof. done. Qed.

Lemma overall_success_iff_no_critical_failure_witness :
  (generate_test_report
     ([result_of (mk_test "c1" "first" true) (Completed 0 [] [])]
        ++ result_of (mk_test "c2" "second" false) TimeoutExpired
        :: [result_of (mk_test "c3" "third" true) (Completed 0 [] [])])).1
  = (generate_test_report
       ([result_of (mk_test "c1" "first" true) (Completed 0 [] [])]
          ++ [result_of (mk_test "c3" "third" true) (Completed 0 [] [])])).1.
Proof.
  refine (proj2 (proj2 (overall_success_iff_no_critical_failure _)) _ _ _).
  reflexivity.
Defined.

(** ** The driver *)

Section Driver.
Variable subprocess_run : string → run_outcome.

Lemma commands_run_app ev ev' :
  commands_run (ev ++ ev') = commands_run ev ++ commands_run ev'.
Proof. apply omap_app. Qed.

Lemma commands_run_print_if_nonblank pr text :
  (∀ t, ∀ c, pr t ≠ Subprocess_run c) →
  commands_run (print_if_nonblank pr text) = [].
Proof.
  intros Hpr. unfold print_if_nonblank.
  destruct (strip text) as [|c s]; [done|].
  unfold commands_run. cbn [omap list_omap].
  specialize (Hpr (c :: s)).
  destruct (pr (c :: s)) as [| | |cmd| | | | |]; try done.
  by destruct (Hpr cmd).
Qed.

(** One check: its command is run once, the result is its success, and
    a failure is logged with its cause.  Nothing is raised. *)
Lemma run_command_spec command description :
  (run_command subprocess_run command description).1
  = outcome_ok (subprocess_run command)
  ∧ commands_run (run_command subprocess_run command description).2 = [command]
  ∧ (outcome_ok (subprocess_run command) = false →
     In (failure_cause description (subprocess_run command))
        (run_command subprocess_run command description).2).
Proof.
  unfold run_command.
  destruct (subprocess_run command) as [rc out err| |e]; cbn [outcome_ok].
  - destruct (rc =? 0)%Z; cbn [fst snd]; (split; [done|]); split.
    + rewrite !commands_run_app, commands_run_print_if_nonblank by done. done.
    + done.
    + rewrite !commands_run_app, commands_run_print_if_nonblank by done. done.
    + intros _. cbn [failure_cause]. rewrite !in_app_iff.
      right. left. by left.
  - cbn [fst snd]. split; [done|]. split; [done|].
    intros _. cbn [failure_cause]. rewrite !in_app_iff. right. by left.
  - cbn [fst snd]. split; [done|]. split; [done|].
    intros _. cbn [failure_cause]. rewrite !in_app_iff. right. by left.
Qed.

Lemma run_tests_spec ts results :
  (run_tests subprocess_run ts results).1
  = results ++ map (λ t, result_of t (subprocess_run (command t))) ts
  ∧ commands_run (run_tests subprocess_run ts results).2 = map command ts
  ∧ ∀ t, In t ts →
      outcome_ok (subprocess_run (command t)) = false →
      In (failure_cause (description t) (subprocess_run (command t)))
         (run_tests subprocess_run ts results).2.
Proof.
  revert results. induction ts as [|t ts IH]; intros results.
  - cbn [run_tests fst snd map]. rewrite app_nil_r. by repeat split.
  - cbn [run_tests].
    destruct (run_command_spec (command t) (description t)) as (Hok & Hrun & Hcause).
    destruct (run_command subprocess_run (command t) (description t))
      as [ok ev] eqn:Ecmd.
    cbn [fst snd] in Hok, Hrun, Hcause. subst ok.
    set (results' := results ++ [_]).
    destruct (IH results') as (Hres & Hruns & Hcauses).
    destruct (run_tests subprocess_run ts results') as [final ev'] eqn:Erest.
    cbn [fst snd] in *. split; [|split].
    + rewrite Hres. unfold results', result_of. cbn [map].
      by rewrite <- (assoc_L (++)).
    + rewrite !commands_run_app, Hrun, Hruns.
      by destruct (negb _ && test_critical t).
    + intros t' [<-|Ht'] Hfail; rewrite !in_app_iff.
      * left. by apply Hcause.
      * right. right. right. by apply Hcauses.
Qed.

(** C7.  The driver runs every check of its list, in order, whatever the
    earlier checks did: a non-zero exit status, a timeout and a raised
    exception each give the result [success = False] for that check, with
    the cause in the log, and the report is then computed from all the
    results. *)
Theorem every_check_runs_and_failures_are_reported :
  (test_deployment subprocess_run).1
  = map (λ t, result_of t (subprocess_run (command t))) tests
  ∧ commands_run (test_deployment subprocess_run).2 = map command tests
  ∧ (∀ t, In t tests →
       outcome_ok (subprocess_run (command t)) = false →
       In (failure_cause (description t) (subprocess_run (command t)))
          (test_deployment subprocess_run).2)
  ∧ (main subprocess_run).1
    = (if (generate_test_report (test_deployment subprocess_run).1).1
       then 0 else 1)%Z.
Proof.
  unfold main, test_deployment.
  destruct (run_tests_spec tests []) as (Hres & Hruns & Hcauses).
  destruct (run_tests subprocess_run tests []) as [results ev].
  cbn [fst snd] in *. split; [done|]. split; [done|]. split.
  - intros t Ht Hfail. right. by apply Hcauses.
  - destruct (generate_test_report results) as [[] ev']; done.
Qed.

End Driver.

(** With every check failing in a different way, all three commands are
    still run, and the verdict comes from the report. *)
Lemma all_fail_run :
  commands_run (test_deployment all_fail).2 = map command tests
  ∧ map success (test_deployment all_fail).1 = [false; false; false]
  ∧ In (Log_message ERROR (Timed_out "Simple HTTP validation test"))
       (test_deployment all_fail).2
  ∧ In (Log_message ERROR
          (Exception_raised "Comprehensive uvx/playwright test" "OSError"))
       (test_deployment all_fail).2
  ∧ In (Log_message ERROR (Failed "Post-deployment screenshot"))
       (test_deployment all_fail).2
  ∧ In (Print_error (lit "no browser")) (test_deployment all_fail).2
  ∧ (main all_fail).1 = 1%Z.
Proof.
  destruct (every_check_runs_and_failures_are_reported all_fail)
    as (_ & Hruns & Hcauses & _).
  split; [exact Hruns|]. split; [reflexivity|].
  split; [exact (Hcauses _ (or_introl eq_refl) eq_refl)|].
  split; [exact (Hcauses _ (or_intror (or_introl eq_refl)) eq_refl)|].
  split; [exact (Hcauses _ (or_intror (or_intror (or_introl eq_refl))) eq_refl)|].
  split; [|reflexivity].
  vm_compute. tauto.
Defined.

End DeployAndTestFacts.

(* ===================================================================== *)
(** * Invariants of a browser run *)
(* ===================================================================== *)

Module PlaywrightFacts.
Import PyStr Playwright.

Section Preservation.
Context {S : Type}.

(** A property of the state that the steps of a script keep. *)
Variable Inv : world S → Prop.

#[local] Abbreviation preserves := (preserves Inv).

Lemma preserves_ret {A} (a : A) : preserves (mret a).
Proof. by intros e w H. Qed.

Lemma preserves_raise {A} x : preserves (raise (A := A) x).
Proof. by intros e w H. Qed.

Lemma preserves_get : preserves get.
Proof. by intros e w H. Qed.

Lemma preserves_bind {A B} (m : M S A) (f : A → M S B) :
  preserves m → (∀ a, preserves (f a)) → preserves (m ≫= f).
Proof.
  intros Hm Hf e w H. unfold mbind, M_bind.
  specialize (Hm e w H). destruct (m e w) as [[a|x] w']; [|done].
  by apply Hf.
Qed.

Lemma preserves_try_except {A} (body : M S A) handler :
  preserves body → (∀ what, preserves (handler what)) →
  preserves (try_except body handler).
Proof.
  intros Hb Hh e w H. unfold try_except.
  specialize (Hb e w H). destruct (body e w) as [[a|[what|what]] w']; [done| |done].
  by apply Hh.
Qed.

Lemma preserves_try_finally {A} (body : M S A) final :
  preserves body → preserves final → preserves (try_finally body final).
Proof.
  intros Hb Hf e w H. unfold try_finally.
  specialize (Hb e w H). destruct (body e w) as [r w'].
  specialize (Hf e w' Hb). by destruct (final e w') as [[[]|x] w''].
Qed.

Lemma preserves_assert cond : preserves (assert_ cond).
Proof. destruct cond; [apply preserves_ret | apply preserves_raise]. Qed.

Lemma preserves_len v : preserves (len v).
Proof. destruct v; first [apply preserves_ret | apply preserves_raise]. Qed.

Lemma preserves_in needle v : preserves (in_ needle v).
Proof. destruct v; first [apply preserves_ret | apply preserves_raise]. Qed.

(** A call keeps [Inv] when recording it does. *)
Lemma preserves_perform c :
  (∀ a w, Inv w → Inv (record c a w)) → preserves (perform c).
Proof.
  intros Hc e w H. unfold perform.
  specialize (Hc (e (length (calls w)) c) w H).
  by destruct (e (length (calls w)) c).
Qed.

Lemma preserves_perform_obj c :
  (∀ a w, Inv w → Inv (record c a w)) → preserves (perform_obj c).
Proof.
  intros Hc e w H. unfold perform_obj.
  specialize (Hc (e (length (calls w)) c) w H).
  by destruct (e (length (calls w)) c).
Qed.

End Preservation.

(** ** Counting over a trace *)

Lemma close_count_app tr tr' :
  close_count (tr ++ tr') = close_count tr + close_count tr'.
Proof. unfold close_count. by rewrite List.filter_app, length_app. Qed.

Lemma succeeded_app sel tr tr' :
  succeeded sel (tr ++ tr') = succeeded sel tr || succeeded sel tr'.
Proof. apply existsb_app. Qed.

Lemma close_count_record {S} c a (w : world S) :
  close_count (calls (record c a w))
  = close_count (calls w) + (if is_close c then 1 else 0).
Proof.
  unfold record. cbn [calls]. rewrite close_count_app. f_equal.
  unfold close_count. cbn [List.filter fst]. by destruct (is_close c).
Qed.

Lemma succeeded_record {S} sel c a (w : world S) :
  succeeded sel (calls (record c a w))
  = succeeded sel (calls w) || (sel c && returned a).
Proof.
  unfold record. cbn [calls]. rewrite succeeded_app. f_equal.
  unfold succeeded. cbn [existsb fst snd]. apply orb_false_r.
Qed.

End PlaywrightFacts.

(* ===================================================================== *)
(** * [browser_automation.py]: the session object *)
(* ===================================================================== *)

Module BrowserAutomationFacts.
Import PyStr Playwright PlaywrightFacts BrowserAutomation.

(** ** Methods called without a page *)

Lemma with_page_none failure body e w :
  page (obj w) = None → with_page failure body e w = (Ok failure, w).
Proof.
  intros H. unfold with_page, mbind, M_bind, get. by rewrite H.
Qed.

(** C9.  On an object that has no page, every interaction method returns
    its failure value ([False] or [None]) at once: it raises nothing,
    calls nothing and leaves the object as it was. *)
Theorem methods_without_page_return_failure
    (e : env) (w : world automation)
    (url wait_until selector text code : str) (path : option str)
    (full_page : bool) (timeout : N) :
  page (obj w) = None →
  navigate_to_url url wait_until e w = (Ok (VBool false), w)
  ∧ take_screenshot path full_page e w = (Ok (VBool false), w)
  ∧ get_page_title e w = (Ok VNone, w)
  ∧ get_page_url e w = (Ok VNone, w)
  ∧ click_element selector timeout e w = (Ok (VBool false), w)
  ∧ fill_input selector text timeout e w = (Ok (VBool false), w)
  ∧ get_text_content selector timeout e w = (Ok VNone, w)
  ∧ wait_for_selector selector timeout e w = (Ok (VBool false), w)
  ∧ execute_javascript code e w = (Ok VNone, w).
Proof.
  intros H. repeat split; by apply with_page_none.
Qed.

Lemma methods_without_page_return_failure_witness :
  navigate_to_url deployment_url (lit "load") cooperative start
  = (Ok (VBool false), start)
  ∧ take_screenshot None true cooperative start = (Ok (VBool false), start)
  ∧ get_page_title cooperative start = (Ok VNone, start)
  ∧ get_page_url cooperative start = (Ok VNone, start)
  ∧ click_element (lit "#my-id") 30000 cooperative start
    = (Ok (VBool false), start)
  ∧ fill_input (lit "#my-id") (lit "hi") 30000 cooperative start
    = (Ok (VBool false), start)
  ∧ get_text_content (lit "#my-id") 30000 cooperative start = (Ok VNone, start)
  ∧ wait_for_selector (lit "#my-id") 30000 cooperative start
    = (Ok (VBool false), start)
  ∧ execute_javascript (lit "1") cooperative start = (Ok VNone, start).
Proof.
  apply (methods_without_page_return_failure cooperative start).
  reflexivity.
Defined.

(** ** The session stays open until [close_session] *)

Lemma session_open_record c a w :
  is_launch c = false → is_close c = false → is_new_page c = false →
  session_open w → session_open (record c a w).
Proof.
  intros Hl Hc Hp (Hcount & Hbrowser & Hpage). split; [|split].
  - rewrite close_count_record, Hc. lia.
  - rewrite succeeded_record, Hl. cbn [andb obj record].
    by rewrite orb_false_r.
  - rewrite !succeeded_record, Hl, Hp. cbn [andb].
    by rewrite !orb_false_r.
Qed.

(** With a browser in the object, a page may be created as well. *)
Lemma browser_open_record c a w :
  is_launch c = false → is_close c = false →
  browser_open w → browser_open (record c a w).
Proof.
  intros Hl Hc [(Hcount & Hbrowser & Hpage) Hsome]. split; [|done].
  split; [|split].
  - rewrite close_count_record, Hc. lia.
  - rewrite succeeded_record, Hl. cbn [andb obj record].
    by rewrite orb_false_r.
  - intros _. rewrite succeeded_record, Hl. cbn [andb].
    rewrite orb_false_r. by apply Hbrowser.
Qed.

Lemma session_open_put w c p :
  session_open w →
  session_open {| calls := calls w;
                  obj := {| browser := browser (obj w); context := c; page := p |} |}.
Proof. by intros (Hcount & Hbrowser & Hpage). Qed.

Lemma preserves_set_context c : preserves session_open (set_context c).
Proof. intros e w H. by apply session_open_put. Qed.

Lemma preserves_set_page p : preserves session_open (set_page p).
Proof. intros e w H. by apply session_open_put. Qed.

Lemma browser_open_set_context c : preserves browser_open (set_context c).
Proof. intros e w [H Hsome]. split; [by apply session_open_put | done]. Qed.

Lemma browser_open_set_page p : preserves browser_open (set_page p).
Proof. intros e w [H Hsome]. split; [by apply session_open_put | done]. Qed.

Lemma preserves_with_page failure body :
  preserves session_open body → preserves session_open (with_page failure body).
Proof.
  intros Hb e w H. unfold with_page, mbind, M_bind, get.
  destruct (page (obj w)); [by apply Hb | done].
Qed.

(** Launching, then storing the browser in the object: what follows
    runs with a browser in the object. *)
Lemma preserves_launch {A} headless (k : M automation A) :
  preserves browser_open k →
  preserves session_open
    (perform_obj (Launch headless) ≫= λ b, set_browser b ≫= λ _, k).
Proof.
  intros Hk e w (Hcount & Hbrowser & Hpage).
  unfold mbind, M_bind, perform_obj, set_browser, mbind, M_bind, get, put.
  destruct (e (length (calls w)) (Launch headless)) as [v|x] eqn:Ea.
  - apply Hk. split; [|done]. split; [|split].
    + cbn [calls]. rewrite close_count_record. cbn [is_close]. lia.
    + cbn [calls obj browser]. rewrite succeeded_record.
      cbn [is_launch returned andb]. rewrite orb_true_r. by split.
    + intros _. cbn [calls]. rewrite succeeded_record.
      cbn [is_launch returned andb]. apply orb_true_r.
  - cbn [snd]. split; [|split].
    + rewrite close_count_record. cbn [is_close]. lia.
    + rewrite succeeded_record. cbn [is_launch returned andb obj record].
      by rewrite orb_false_r.
    + rewrite !succeeded_record. cbn [is_launch is_new_page returned andb].
      by rewrite !orb_false_r.
Qed.

(** Applies the preservation lemmas along the structure of a method. *)
Ltac keep_step :=
  first
    [ apply preserves_ret
    | apply preserves_raise
    | apply preserves_get
    | apply preserves_assert
    | apply preserves_set_context
    | apply preserves_set_page
    | apply browser_open_set_context
    | apply browser_open_set_page
    | apply preserves_launch
    | apply preserves_with_page
    | apply preserves_perform;
        [intros ? ? ?; apply session_open_record;
         [reflexivity|reflexivity|reflexivity|assumption]]
    | apply preserves_perform_obj;
        [intros ? ? ?; apply session_open_record;
         [reflexivity|reflexivity|reflexivity|assumption]]
    | apply preserves_perform_obj;
        [intros ? ? ?; apply browser_open_record;
         [reflexivity|reflexivity|assumption]]
    | apply preserves_try_except; [|intros ?]
    | apply preserves_try_finally
    | apply preserves_bind; [|intros ?] ].

Ltac keep_open := repeat keep_step.

Lemma preserves_create_session headless width height :
  preserves session_open (create_session headless width height).
Proof. unfold create_session. keep_open. Qed.

Lemma preserves_navigate_to_url url wait_until :
  preserves session_open (navigate_to_url url wait_until).
Proof. unfold navigate_to_url. keep_open. Qed.

Lemma preserves_take_screenshot path full_page :
  preserves session_open (take_screenshot path full_page).
Proof. unfold take_screenshot. destruct path as [[|c p]|]; keep_open. Qed.

Lemma preserves_get_page_title : preserves session_open get_page_title.
Proof. unfold get_page_title. keep_open. Qed.

Lemma preserves_get_page_url : preserves session_open get_page_url.
Proof. unfold get_page_url. keep_open. Qed.

Lemma preserves_click_element selector timeout :
  preserves session_open (click_element selector timeout).
Proof. unfold click_element. keep_open. Qed.

Lemma preserves_fill_input selector text timeout :
  preserves session_open (fill_input selector text timeout).
Proof. unfold fill_input. keep_open. Qed.

Lemma preserves_get_text_content selector timeout :
  preserves session_open (get_text_content selector timeout).
Proof. unfold get_text_content. keep_open. Qed.

Lemma preserves_wait_for_selector selector timeout :
  preserves session_open (wait_for_selector selector timeout).
Proof. unfold wait_for_selector. keep_open. Qed.

Lemma preserves_execute_javascript code :
  preserves session_open (execute_javascript code).
Proof. unfold execute_javascript. keep_open. Qed.

Create HintDb session.

#[local] Hint Resolve preserves_create_session preserves_navigate_to_url
  preserves_take_screenshot preserves_get_page_title preserves_get_page_url
  preserves_click_element preserves_fill_input preserves_get_text_content
  preserves_wait_for_selector preserves_execute_javascript : session.

Ltac keep_session := repeat first [ solve [auto with session] | keep_step ].

Lemma preserves_test_steps : preserves session_open test_steps.
Proof. unfold test_steps. keep_session. Qed.

Lemma preserves_on_error what : preserves session_open (on_error what).
Proof. unfold on_error. keep_session. Qed.

Lemma session_open_start : session_open start.
Proof. split; [done|]. split; [|done]. split; [by intros [? ?] | done]. Qed.

Lemma close_session_closes e w :
  session_open w → closed_once (calls (close_session e w).2).
Proof.
  intros (Hcount & Hbrowser & Hpage).
  unfold close_session, try_except, mbind, M_bind, get, perform, mret, M_ret.
  destruct (browser (obj w)) as [b|] eqn:Eb.
  - assert (succeeded is_launch (calls w) = true) as Hl by (by apply Hbrowser).
    assert (∀ a, closed_once (calls (record Browser_close a w))) as Hrec.
    { intros a. split.
      - by rewrite close_count_record, succeeded_record, Hl, Hcount.
      - intros _. by rewrite succeeded_record, Hl. }
    destruct (e (length (calls w)) Browser_close) as [v|[what|what]] eqn:Ea;
      cbn [snd]; apply Hrec.
  - cbn [snd]. split; [|done]. rewrite Hcount.
    destruct (succeeded is_launch (calls w)) eqn:El; [|done].
    destruct (proj2 Hbrowser eq_refl) as [? ?]. done.
Qed.

(** The browser of one invocation is closed once if it was launched, and
    never otherwise. *)
Lemma test_deployment_closes_once e :
  closed_once (calls (test_deployment e start).2).
Proof.
  unfold test_deployment, try_finally.
  pose proof (preserves_try_except session_open _ _
                preserves_test_steps preserves_on_error e start
                session_open_start) as Hopen.
  destruct (try_except test_steps on_error e start) as [r w]. cbn [snd] in Hopen.
  pose proof (close_session_closes e w Hopen) as Hclose.
  unfold mbind, M_bind.
  destruct (close_session e w) as [[v|x] w']; exact Hclose.
Qed.

End BrowserAutomationFacts.

(* ===================================================================== *)
(** * [test_deployment.py]: the interactive checker *)
(* ===================================================================== *)

Module TestDeploymentFacts.
Import PyStr Playwright PlaywrightFacts TestDeployment.

Lemma page_session_record c a w :
  is_close c = false → session_open w → session_open (record c a w).
Proof.
  intros Hc [Hcount Hpage]. split.
  - rewrite close_count_record, Hc. lia.
  - by rewrite succeeded_record, Hpage.
Qed.

Ltac keep_step :=
  first
    [ apply preserves_ret
    | apply preserves_raise
    | apply preserves_assert
    | apply preserves_len
    | apply preserves_in
    | apply preserves_perform;
        [intros ? ? ?; apply page_session_record; [reflexivity|assumption]]
    | apply preserves_try_except; [|intros ?]
    | apply preserves_bind; [|intros ?] ].

Lemma page_steps_keep_session : preserves session_open test_steps.
Proof. unfold test_steps. repeat keep_step. Qed.

Lemma page_on_error_keeps_session what : preserves session_open (on_error what).
Proof. unfold on_error. repeat keep_step. Qed.

(** Inside [async with]: the browser is closed once if the page was
    created, and never otherwise. *)
Lemma with_playwright_closes e w :
  close_count (calls w) = 0 →
  succeeded is_new_page (calls w) = false →
  close_count (calls (with_playwright e w).2)
  = (if succeeded is_new_page (calls (with_playwright e w).2) then 1 else 0).
Proof.
  intros Hcount Hpage.
  unfold with_playwright, mbind, M_bind, perform_obj.
  destruct (e (length (calls w)) (Launch false)) as [v1|x1]; cbn [snd].
  2:{ by rewrite close_count_record, succeeded_record, Hcount, Hpage. }
  set (w1 := record (Launch false) (Returns v1) w).
  destruct (e (length (calls w1)) (New_context None)) as [v2|x2]; cbn [snd].
  2:{ subst w1.
      by rewrite !close_count_record, !succeeded_record, Hcount, Hpage. }
  set (w2 := record (New_context None) (Returns v2) w1).
  destruct (e (length (calls w2)) New_page) as [v3|x3]; cbn [snd].
  2:{ subst w2 w1.
      by rewrite !close_count_record, !succeeded_record, Hcount, Hpage. }
  set (w3 := record New_page (Returns v3) w2).
  assert (session_open w3) as Hopen.
  { split.
    - unfold w3, w2, w1. by rewrite !close_count_record, Hcount.
    - unfold w3. rewrite succeeded_record. apply orb_true_r. }
  unfold try_finally.
  pose proof (preserves_try_except session_open _ _
                page_steps_keep_session page_on_error_keeps_session e w3 Hopen) as Hbody.
  destruct (try_except test_steps on_error e w3) as [r w4].
  cbn [snd] in Hbody. destruct Hbody as [Hcount4 Hpage4].
  unfold mbind, M_bind, perform.
  assert (∀ a, close_count (calls (record Browser_close a w4))
               = (if succeeded is_new_page (calls (record Browser_close a w4))
                  then 1 else 0)) as Hrec.
  { intros a. by rewrite close_count_record, succeeded_record, Hcount4, Hpage4. }
  destruct (e (length (calls w4)) Browser_close) as [v|x]; cbn [snd]; apply Hrec.
Qed.

Lemma page_test_closes_once e :
  close_count (calls (test_deployment e start).2)
  = (if succeeded is_new_page (calls (test_deployment e start).2) then 1 else 0).
Proof.
  unfold test_deployment, mbind, M_bind, perform_obj.
  destruct (e (length (calls start)) Start_playwright) as [v|x]; [|done].
  set (w1 := record Start_playwright (Returns v) start).
  unfold try_finally.
  pose proof (with_playwright_closes e w1 eq_refl eq_refl) as Hclose.
  destruct (with_playwright e w1) as [r w2]. cbn [snd] in Hclose.
  unfold perform.
  assert (∀ a, close_count (calls (record Stop_playwright a w2))
               = (if succeeded is_new_page (calls (record Stop_playwright a w2))
                  then 1 else 0)) as Hrec.
  { intros a. rewrite close_count_record, succeeded_record, Hclose.
    cbn [is_close is_new_page andb]. by rewrite Nat.add_0_r, orb_false_r. }
  destruct (e (length (calls w2)) Stop_playwright) as [v'|x']; cbn [snd]; apply Hrec.
Qed.

End TestDeploymentFacts.

(* ===================================================================== *)
(** * The interactive checker releases its session *)
(* ===================================================================== *)

Module InteractiveCheckerFacts.
Import PyStr Playwright.

(** C3.  In both scripts [test_deployment] calls [browser.close()]
    exactly once when it has acquired its session, and never otherwise,
    whatever the browser answers: on normal completion, on a failed
    assertion, and on an exception raised by any step.  The session is
    acquired when the page is created, which is where the [try] block of
    [test_deployment.py] starts; [browser_automation.py] closes the
    browser already when the launch alone has returned. *)
Theorem browser_closed_exactly_once (e : env) :
  close_count
    (calls (BrowserAutomation.test_deployment e BrowserAutomation.start).2)
  = (if succeeded is_launch
          (calls (BrowserAutomation.test_deployment e BrowserAutomation.start).2)
     then 1 else 0)
  ∧ close_count
      (calls (TestDeployment.test_deployment e TestDeployment.start).2)
    = (if succeeded is_new_page
            (calls (TestDeployment.test_deployment e TestDeployment.start).2)
       then 1 else 0)
  ∧ (succeeded is_new_page
       (calls (BrowserAutomation.test_deployment e BrowserAutomation.start).2)
     = true →
     close_count
       (calls (BrowserAutomation.test_deployment e BrowserAutomation.start).2)
     = 1).
Proof.
  destruct (BrowserAutomationFacts.test_deployment_closes_once e)
    as [Hcount Hpage].
  split; [exact Hcount|]. split.
  - apply TestDeploymentFacts.page_test_closes_once.
  - intros Hcreated. by rewrite Hcount, (Hpage Hcreated).
Qed.

Lemma browser_closed_exactly_once_witness :
  close_count
    (calls (BrowserAutomation.test_deployment wrong_title BrowserAutomation.start).2)
  = 1
  ∧ close_count
      (calls (TestDeployment.test_deployment wrong_title TestDeployment.start).2)
    = 1.
Proof.
  destruct (browser_closed_exactly_once wrong_title) as (H1 & H2 & _).
  split; [rewrite H1 | rewrite H2]; vm_compute; reflexivity.
Defined.

(** The exit paths exist: normal completion, a failed assertion, an
    exception of a step, and an interrupt; the browser is closed once on
    each.  When the launch itself fails there is no browser to close. *)
Lemma exit_paths_close_once :
  let run_a e := BrowserAutomation.test_deployment e BrowserAutomation.start in
  let run_t e := TestDeployment.test_deployment e TestDeployment.start in
  ((run_a cooperative).1 = Ok tt ∧ close_count (calls (run_a cooperative).2) = 1)
  ∧ ((run_t cooperative).1 = Ok tt ∧ close_count (calls (run_t cooperative).2) = 1)
  ∧ ((run_a wrong_title).1 = Raise (Exception "AssertionError")
     ∧ close_count (calls (run_a wrong_title).2) = 1)
  ∧ ((run_t wrong_title).1 = Raise (Exception "AssertionError")
     ∧ close_count (calls (run_t wrong_title).2) = 1)
  ∧ ((run_t (failing_at 9 (Exception "TimeoutError"))).1
     = Raise (Exception "TimeoutError")
     ∧ close_count (calls (run_t (failing_at 9 (Exception "TimeoutError"))).2) = 1)
  ∧ ((run_a (failing_at 7 (BaseException "KeyboardInterrupt"))).1
     = Raise (BaseException "KeyboardInterrupt")
     ∧ close_count
         (calls (run_a (failing_at 7 (BaseException "KeyboardInterrupt"))).2) = 1)
  ∧ ((run_a (failing_at 1 (Exception "Error"))).1
     = Raise (Exception "AssertionError")
     ∧ close_count (calls (run_a (failing_at 1 (Exception "Error"))).2) = 0).
Proof. vm_compute. repeat split. Qed.

End InteractiveCheckerFacts.

(* ===================================================================== *)
(** * [test_https_server.py] *)
(* ===================================================================== *)

Module TestHttpsServerFacts.
Import PyStr TestHttpsServer.

Lemma exists_true (files : gmap string string) path :
  is_Some (files !! path) → exists_ files path = true.
Proof. intros H. unfold exists_. by apply bool_decide_eq_true_2. Qed.

(** C8.  When both files exist, [create_self_signed_cert] returns the two
    fixed names, does not run [openssl], and leaves the directory (hence
    both files) as it was. *)
Theorem existing_certificate_is_reused
    (files : gmap string string) (openssl : openssl_result) :
  is_Some (files !! cert_file) →
  is_Some (files !! key_file) →
  create_self_signed_cert files openssl
  = (Returned ("localhost.crt", "localhost.key"), files, [Print Cert_files_exist]).
Proof.
  intros Hcert Hkey. unfold create_self_signed_cert.
  by rewrite (exists_true _ _ Hcert), (exists_true _ _ Hkey).
Qed.

Lemma existing_certificate_is_reused_witness :
  create_self_signed_cert (files ready) (Generated "NEW KEY" "NEW CERT")
  = (Returned ("localhost.crt", "localhost.key"), files ready,
     [Print Cert_files_exist]).
Proof.
  apply existing_certificate_is_reused; by eexists.
Defined.

(** Without the pair, the tool is run and both files are written. *)
Lemma missing_certificate_is_generated :
  create_self_signed_cert ∅ (Generated "KEY" "CERT")
  = (Returned (cert_file, key_file),
     {[ cert_file := "CERT"; key_file := "KEY" ]},
     [Print Creating_cert; Run_openssl openssl_args; Print Cert_created]).
Proof. reflexivity. Qed.

Section Main.
Variable int : str → option Z.

Lemma bound_ports_app ev ev' :
  bound_ports (ev ++ ev') = bound_ports ev ++ bound_ports ev'.
Proof. apply omap_app. Qed.

Lemma serving_on_app_l ev ev' :
  bound_ports ev = [] → Serve_forever ∉ ev →
  serving_on (ev ++ ev') = serving_on ev'.
Proof.
  intros Hports Hserve. unfold serving_on.
  rewrite bound_ports_app, Hports, app_nil_l.
  destruct (decide (Serve_forever ∈ ev')) as [Hin|Hout].
  - rewrite !bool_decide_eq_true_2; [done|done|].
    apply elem_of_app. by right.
  - rewrite !bool_decide_eq_false_2; [done|done|].
    intros [?|?]%elem_of_app; done.
Qed.

(** The certificate step of a server that can start: it returns the two
    names, and neither binds a port nor serves. *)
Lemma create_self_signed_cert_ready e port :
  can_serve e port →
  ∃ files' ev,
    create_self_signed_cert (files e) (openssl e)
    = (Returned (cert_file, key_file), files', ev)
    ∧ bound_ports ev = [] ∧ Serve_forever ∉ ev.
Proof.
  intros (Hcert & _). unfold create_self_signed_cert.
  destruct Hcert as [->|(key & cert & ->)].
  - eexists _, _. split; [done|]. split; [done|].
    by intros [=]%list_elem_of_singleton.
  - destruct (_ && _); eexists _, _; (split; [done|]); (split; [done|]).
    + by intros [=]%list_elem_of_singleton.
    + intros Hin. repeat (apply elem_of_cons in Hin as [[=]|Hin]).
      by apply elem_of_nil in Hin.
Qed.

Lemma start_https_server_serves port e :
  can_serve e port →
  (start_https_server port e).1.1 = Returned tt
  ∧ serving_on (start_https_server port e).2 = Some port.
Proof.
  intros Hserve.
  destruct (create_self_signed_cert_ready e port Hserve)
    as (files' & ev & Hcert & Hports & Hnone).
  destruct Hserve as (_ & Hload & Hbind & Hwrap).
  unfold start_https_server. rewrite Hcert, Hload, Hbind, Hwrap.
  cbn [fst snd]. split; [done|].
  rewrite <- !(assoc_L (++)). by rewrite serving_on_app_l.
Qed.

(** C10.  With a first argument that [int] rejects, the script reports
    the invalid port and goes on exactly as with the default: it calls
    [start_https_server(8443)].  Nothing is raised for the argument, and
    the server is started on port 8443 whenever the environment lets a
    server start there. *)
Theorem unparseable_port_falls_back_to_default
    (script arg : str) (rest : list str) (e : environment) :
  int arg = None →
  main int (script :: arg :: rest) e
  = ((start_https_server 8443 e).1.1, (start_https_server 8443 e).1.2,
     [Print Invalid_port; Print Banner] ++ (start_https_server 8443 e).2)
  ∧ (can_serve e 8443 →
     (main int (script :: arg :: rest) e).1.1 = Returned tt
     ∧ serving_on (main int (script :: arg :: rest) e).2 = Some 8443%Z).
Proof.
  intros Hint.
  assert (main int (script :: arg :: rest) e
          = ((start_https_server 8443 e).1.1, (start_https_server 8443 e).1.2,
             [Print Invalid_port; Print Banner] ++ (start_https_server 8443 e).2))
    as Hmain.
  { unfold main, choose_port. rewrite Hint.
    by destruct (start_https_server 8443 e) as [[r files'] ev]. }
  split; [exact Hmain|]. intros Hserve. rewrite Hmain. cbn [fst snd].
  destruct (start_https_server_serves 8443 e Hserve) as [Hr Hs].
  split; [exact Hr|].
  rewrite serving_on_app_l; [exact Hs|done|].
  intros Hin. repeat (apply elem_of_cons in Hin as [[=]|Hin]).
  by apply elem_of_nil in Hin.
Qed.

End Main.

Lemma unparseable_port_falls_back_to_default_witness :
  main int_ascii [lit "test_https_server.py"; lit "https"] ready
  = ((start_https_server 8443 ready).1.1, (start_https_server 8443 ready).1.2,
     [Print Invalid_port; Print Banner] ++ (start_https_server 8443 ready).2)
  ∧ (can_serve ready 8443 →
     (main int_ascii [lit "test_https_server.py"; lit "https"] ready).1.1
     = Returned tt
     ∧ serving_on (main int_ascii [lit "test_https_server.py"; lit "https"] ready).2
       = Some 8443%Z).
Proof.
  apply (unparseable_port_falls_back_to_default int_ascii).
  vm_compute. reflexivity.
Defined.

(** The environment [ready] lets the server start, and a valid port is
    used as given. *)
Lemma ready_can_serve port : can_serve ready port.
Proof. split; [left; by vm_compute | done]. Qed.

Lemma valid_port_is_used :
  int_ascii (lit "9000") = Some 9000%Z
  ∧ serving_on (main int_ascii [lit "test_https_server.py"; lit "9000"] ready).2
    = Some 9000%Z.
Proof. by vm_compute. Qed.

End TestHttpsServerFacts.

(* ===================================================================== *)
(** * The command lines *)
(* ===================================================================== *)

Module CliFacts.
Import PyStr Playwright Cli.





End CliFacts.

(* ===================================================================== *)
(** * More on the static-content checker *)
(* ===================================================================== *)

Module StaticCheckerMore.
Import PyStr PyStrFacts TestDeploymentSimple TestDeploymentSimpleFacts.

(** ** When the function returns [True] *)

Lemma test_deployment_simple_response status body :
  test_deployment_simple (Response status body)
  = if (status =? 200)%Z then
      match body with
      | Decoded content => static_check content
      | Read_error e =>
          (false, [Testing_deployment; Testing_connectivity; Accessible;
                   Unexpected_error e])
      end
    else (false, [Testing_deployment; Testing_connectivity;
                  Unexpected_status status]).
Proof.
  destruct (status =? 200)%Z eqn:E.
  - apply Z.eqb_eq in E as ->. by destruct body.
  - unfold test_deployment_simple. rewrite !run_print. cbn [fst snd].
    by rewrite E.
Qed.




(** ** Text around a passing page *)

Lemma contains_app_mono m pre content post :
  contains m content = true → contains m (pre ++ content ++ post) = true.
Proof.
  rewrite !contains_spec. intros (a & b & ->).
  exists (pre ++ a), (b ++ post). by rewrite <- !(assoc_L (++)).
Qed.

(** X2.  A page that passes still passes with any text put before and
    after it: the checker only looks for the presence of its markers. *)
Theorem passing_page_stays_passing (content pre post : str) :
  (static_check content).1 = true →
  (static_check (pre ++ content ++ post)).1 = true.
Proof.
  destruct (static_check_spec content) as (-> & _).
  destruct (static_check_spec (pre ++ content ++ post)) as (-> & _).
  induction all_markers as [|m ms IH]; [done|]. cbn [forallb].
  intros [Hm Hms]%andb_true_iff.
  by rewrite (contains_app_mono _ _ _ _ Hm), IH.
Qed.

Lemma passing_page_stays_passing_witness :
  (static_check (lit "<!doctype html>" ++ complete_page ++ lit "<p>more</p>")).1
  = true.
Proof.
  apply passing_page_stays_passing. vm_compute. reflexivity.
Defined.

(** ** The closing line *)

Lemma fail_fast_lines checks l :
  In l (fail_fast checks).2 →
  ∃ c, In c checks ∧ (l = ok_line c ∨ l = bad_line c).
Proof.
  induction checks as [|c checks IH]; cbn [fail_fast]; [done|].
  destruct (holds c).
  - destruct (fail_fast checks) as [verdict out]. cbn [snd] in *.
    intros [<-|Hin].
    + exists c. split; [by left | by left].
    + destruct (IH Hin) as (c' & Hc' & Hl). exists c'. split; [by right | done].
  - cbn [snd]. intros [<-|[]]. exists c. split; [by left | by right].
Qed.

Lemma fail_fast_never_prints_all_passed content :
  ¬ In All_passed (fail_fast (checks_before_scan content)).2
  ∧ ¬ In All_passed (fail_fast (checks_after_scan content)).2.
Proof.
  split; intros (c & Hc & Hl)%fail_fast_lines;
    unfold checks_before_scan, checks_after_scan in Hc;
    apply in_app_iff in Hc as [Hc|Hc].
  - apply in_map_iff in Hc as (m & <- & _). by destruct Hl.
  - destruct Hc as [<-|[]]. by destruct Hl.
  - destruct Hc as [<-|[<-|[]]]; by destruct Hl.
  - apply in_map_iff in Hc as (m & <- & _). by destruct Hl.
Qed.

Lemma http_report_never_prints_all_passed found :
  ¬ In All_passed (http_report found).
Proof.
  destruct found as [|r rs]; cbn [http_report warning_lines].
  - by intros [|[]].
  - intros [|(x & ? & _)%in_map_iff]; done.
Qed.

(** X3.  The line that announces success is printed exactly when the
    function returns [True], whatever the fetch gave. *)
Theorem success_is_announced_iff_returned (r : urlopen_result) :
  In All_passed (test_deployment_simple r).2
  ↔ (test_deployment_simple r).1 = true.
Proof.
  assert (∀ content, In All_passed (static_check content).2
                     ↔ (static_check content).1 = true) as Hstatic.
  { intros content.
    destruct (static_check_spec content) as (_ & _ & _ & _ & ->).
    destruct (fail_fast_never_prints_all_passed content) as [Hbefore Hafter].
    pose proof (http_report_never_prints_all_passed (findall_http content))
      as Hreport.
    unfold fail_fast_run, preamble.
    destruct (fail_fast (checks_before_scan content)) as [[] out];
      [destruct (fail_fast (checks_after_scan content)) as [[] out']|];
      cbn [fst snd app In] in *; rewrite ?in_app_iff; cbn [In];
      intuition congruence. }
  destruct r as [e|e|status body].
  - cbn. intuition congruence.
  - cbn. intuition congruence.
  - rewrite test_deployment_simple_response.
    destruct (status =? 200)%Z; [destruct body as [content|e]|].
    + apply Hstatic.
    + cbn. intuition congruence.
    + cbn. intuition congruence.
Qed.

(** ** The insecure references that are listed *)

Lemma span_while_spec p s :
  Forall (λ c, p c = true) (span_while p s)
  ∧ ∃ rest, s = span_while p s ++ rest.
Proof.
  induction s as [|c s [IHall [rest IHrest]]]; cbn [span_while].
  - split; [done | by exists []].
  - destruct (p c) eqn:E.
    + split; [by constructor|]. exists rest. cbn [app]. by rewrite <- IHrest.
    + split; [done | by exists (c :: s)].
Qed.

(** A match is the literal, then a non-empty run of characters of the
    class, and it stands at the start of the text. *)
Lemma match_http_shape s m :
  match_http s = Some m →
  ∃ run rest,
    m = http_prefix ++ run ∧ run ≠ []
    ∧ Forall (λ c, not_quote_or_space c = true) run
    ∧ s = m ++ rest.
Proof.
  unfold match_http. destruct (startswith http_prefix s) eqn:E; [|done].
  apply startswith_inv in E as [t ->]. rewrite drop_app_length.
  destruct (span_while_spec not_quote_or_space t) as [Hall [rest Hrest]].
  destruct (span_while not_quote_or_space t) as [|c run] eqn:Erun; [done|].
  intros Hm. assert (m = http_prefix ++ c :: run) as -> by congruence.
  exists (c :: run), rest. split; [done|]. split; [done|]. split; [done|].
  by rewrite <- (assoc_L (++)), <- Hrest.
Qed.

Lemma findall_http_from_matches skip s m :
  In m (findall_http_from skip s) →
  ∃ pre t, s = pre ++ t ∧ match_http t = Some m.
Proof.
  revert skip. induction s as [|c s IH]; intros skip; cbn [findall_http_from];
    [done|].
  assert (∀ k, In m (findall_http_from k s) →
               ∃ pre t, c :: s = pre ++ t ∧ match_http t = Some m) as Htail.
  { intros k (pre & t & -> & Ht)%IH. by exists (c :: pre), t. }
  destruct skip as [|k]; [|apply Htail].
  destruct (match_http (c :: s)) as [m'|] eqn:E; [|apply Htail].
  intros [<-|Hin]; [by exists [], (c :: s) | by eapply Htail].
Qed.

Lemma warning_lines_resource found r :
  In (Http_resource r) (warning_lines found) → In r found.
Proof.
  destruct found as [|x xs]; [done|]. cbn [warning_lines].
  intros [|(y & [= ->] & Hy)%in_map_iff]; done.
Qed.

Lemma warning_lines_count found n :
  In (Http_resources_found n) (warning_lines found) →
  n = length found ∧ 0 < n.
Proof.
  destruct found as [|x xs]; [done|]. cbn [warning_lines].
  intros [[= <-]|(y & ? & _)%in_map_iff]; [|done].
  split; [done | cbn; lia].
Qed.

Lemma warnings_of_run content l :
  is_warning l = true →
  In l (static_check content).2 →
  In l (warning_lines (findall_http content)).
Proof.
  intros Hl Hin.
  destruct (static_check_spec content) as (_ & _ & Hwarn & _).
  assert (In l (warnings (static_check content).2)) as Hin'.
  { unfold warnings. apply filter_In. by split. }
  rewrite Hwarn in Hin'. by destruct (forallb _ _).
Qed.

(** X4.  Every insecure reference the checker lists is a piece of the
    body that starts with [http://], goes on with at least one more
    character, and holds neither a double quote nor whitespace after the
    literal.  The number it announces is the number of references found,
    and is never zero. *)
Theorem listed_references_are_well_formed (content : str) :
  (∀ r, In (Http_resource r) (static_check content).2 →
        startswith http_prefix r = true
        ∧ length http_prefix < length r
        ∧ Forall (λ c, c ≠ 34%N ∧ isspace c = false)
                 (drop (length http_prefix) r)
        ∧ contains r content = true)
  ∧ (∀ n, In (Http_resources_found n) (static_check content).2 →
          n = length (findall_http content) ∧ 0 < n).
Proof.
  split.
  - intros r Hin%warnings_of_run%warning_lines_resource; [|done].
    apply findall_http_from_matches in Hin as (pre & t & -> & Hm).
    apply match_http_shape in Hm as (run & rest & -> & Hrun & Hall & ->).
    split; [apply startswith_app|]. split; [|split].
    + rewrite length_app. destruct run; [done | cbn; lia].
    + rewrite drop_app_length. eapply Forall_impl; [exact Hall|].
      intros c Hc. unfold not_quote_or_space in Hc.
      apply andb_true_iff in Hc as [Hq Hs].
      apply negb_true_iff in Hq, Hs. split; [|done].
      by apply N.eqb_neq.
    + apply contains_spec. by exists pre, rest.
  - intros n Hin%warnings_of_run; [|done]. by apply warning_lines_count.
Qed.

Lemma listed_references_are_well_formed_witness :
  startswith http_prefix (lit "http://cdn.example/a.js") = true
  ∧ length http_prefix < length (lit "http://cdn.example/a.js")
  ∧ Forall (λ c, c ≠ 34%N ∧ isspace c = false)
           (drop (length http_prefix) (lit "http://cdn.example/a.js"))
  ∧ contains (lit "http://cdn.example/a.js") insecure_page = true.
Proof.
  apply (proj1 (listed_references_are_well_formed insecure_page)).
  vm_compute. tauto.
Defined.

End StaticCheckerMore.

(* ===================================================================== *)
(** * More on the workflow driver *)
(* ===================================================================== *)

Module WorkflowMore.
Import PyStr DeployAndTest DeployAndTestFacts.

(** ** The wait *)






(** The wait of the script: its notices. *)
Lemma wait_of_thirty_seconds :
  countdown_notices (wait_for_deployment 30) = [30; 20; 10; 5; 4; 3; 2; 1].
Proof. by vm_compute. Qed.

(** ** The totals of the report *)

Lemma filter_length_le {A} (p : A → bool) (l : list A) :
  length (List.filter p l) ≤ length l.
Proof.
  induction l as [|a l IH]; [done|]. cbn [List.filter].
  destruct (p a); cbn [length]; lia.
Qed.

Lemma filter_split_length {A} (p : A → bool) (l : list A) :
  length (List.filter p l) + length (List.filter (λ a, negb (p a)) l)
  = length l.
Proof.
  induction l as [|a l IH]; [done|]. cbn [List.filter].
  destruct (p a); cbn [negb length]; lia.
Qed.

Lemma filter_length_mono {A} (p q : A → bool) (l : list A) :
  (∀ a, p a = true → q a = true) →
  length (List.filter p l) ≤ length (List.filter q l).
Proof.
  intros Hpq. induction l as [|a l IH]; [done|]. cbn [List.filter].
  destruct (p a) eqn:Ep.
  - rewrite (Hpq a Ep). cbn [length]. lia.
  - destruct (q a); cbn [length]; lia.
Qed.

(** X6.  In every report the passed and the failed tests add up to the
    total, the failed tests are exactly those whose [success] is false,
    and the critical failures are among them. *)
Theorem report_totals_add_up (results : list result) :
  passed_tests results + failed_tests results = total_tests results
  ∧ failed_tests results
    = length (List.filter (λ r, negb (success r)) results)
  ∧ critical_failures results ≤ failed_tests results
  ∧ In (Print_totals (total_tests results) (passed_tests results)
                     (failed_tests results) (critical_failures results))
       (generate_test_report results).2.
Proof.
  assert (In (Print_totals (total_tests results) (passed_tests results)
                (failed_tests results) (critical_failures results))
             (generate_test_report results).2) as Hprinted.
  { unfold generate_test_report.
    destruct (critical_failures results =? 0); right; by left. }
  repeat split; [| | |exact Hprinted]; clear Hprinted;
    unfold failed_tests, passed_tests, critical_failures, total_tests;
    rewrite !sum_ones_length;
    pose proof (filter_split_length success results) as Hsplit.
  - lia.
  - lia.
  - etrans; [|apply Nat.eq_le_incl; symmetry; apply Nat.add_sub_eq_l, Hsplit].
    apply filter_length_mono. intros r. by destruct (success r).
Qed.

(** ** The exit status of the driver *)

(** X7.  The driver exits with status 0 exactly when the commands of
    its two critical checks both complete with status 0; it exits with
    status 1 otherwise.  What the screenshot command does never changes
    the status. *)
Theorem exit_status_decided_by_critical_checks
    (subprocess_run : string → run_outcome) :
  ((main subprocess_run).1 = 0%Z
   ↔ outcome_ok (subprocess_run "python3 test_deployment_simple.py") = true
     ∧ outcome_ok (subprocess_run "python3 test_deployment_uvx.py") = true)
  ∧ ((main subprocess_run).1 ≠ 0%Z → (main subprocess_run).1 = 1%Z).
Proof.
  assert ((main subprocess_run).1
          = if count_failed_critical (test_deployment subprocess_run).1 =? 0
            then 0%Z else 1%Z) as ->.
  { unfold main.
    destruct (test_deployment subprocess_run) as [results ev]. cbn [fst].
    pose proof (generate_test_report_verdict results) as Hv.
    destruct (generate_test_report results) as [ok ev']. cbn [fst] in Hv.
    subst ok. by destruct (_ =? 0). }
  assert ((test_deployment subprocess_run).1
          = map (λ t, result_of t (subprocess_run (command t))) tests) as ->.
  { unfold test_deployment.
    destruct (run_tests_spec subprocess_run tests []) as (Hres & _).
    by destruct (run_tests subprocess_run tests []). }
  unfold count_failed_critical, failed_and_critical, tests.
  cbn [map List.filter result_of success critical command test_critical].
  rewrite andb_false_r.
  destruct (outcome_ok (subprocess_run "python3 test_deployment_simple.py"));
    destruct (outcome_ok (subprocess_run "python3 test_deployment_uvx.py"));
    cbn; intuition congruence.
Qed.

Lemma exit_status_decided_by_critical_checks_witness :
  (main all_fail).1 = 1%Z.
Proof.
  refine (proj2 (exit_status_decided_by_critical_checks all_fail) _).
  vm_compute. discriminate.
Defined.

(** ** The time the driver sleeps *)

Section Sleeping.
Variable subprocess_run : string → run_outcome.






End Sleeping.

(** ** The captured output of a command *)

Lemma print_if_nonblank_in (pr : str → event) (text : str) (x : event) :
  In x (print_if_nonblank pr text) ↔ strip text ≠ [] ∧ x = pr (strip text).
Proof.
  unfold print_if_nonblank. destruct (strip text) as [|c stripped]; cbn [In].
  - split; [done|]. by intros [? _].
  - split; [intros [<-|[]]; by split|]. intros [_ ->]. by left.
Qed.

(** X23.  A command shows its captured output only in two cases: after
    exit status 0 the standard output, and after any other exit status
    the standard error; each stripped of surrounding white space, and
    only if something is left after stripping.  After a timeout or another
    exception nothing of the output is shown. *)
Theorem captured_output_is_shown_stripped_and_nonblank
    (subprocess_run : string → run_outcome)
    (command description : string) (text : str) :
  (In (Print_output text) (run_command subprocess_run command description).2
   ↔ text ≠ []
     ∧ ∃ stdout stderr,
         subprocess_run command = Completed 0 stdout stderr
         ∧ text = strip stdout)
  ∧ (In (Print_error text) (run_command subprocess_run command description).2
     ↔ text ≠ []
       ∧ ∃ returncode stdout stderr,
           subprocess_run command = Completed returncode stdout stderr
           ∧ returncode ≠ 0%Z
           ∧ text = strip stderr).
Proof.
  unfold run_command.
  destruct (subprocess_run command) as [rc out err| |e];
    [destruct (Z.eqb_spec rc 0) as [->|Hrc]| |]; cbn [snd].
  all: rewrite ?in_app_iff, ?print_if_nonblank_in; cbn [In].
  all: split; split.
  all: try (intros [[[=]|[[=]|[]]]|[[[=]|[]]|[Hne [=]]]]; fail).
  all: try (intros [[[=]|[[=]|[]]]|[[=]|[]]]; fail).
  all: try (intros (_ & ? & ? & [=] & _); fail).
  all: try (intros (_ & ? & ? & ? & [=] & _); fail).
  - intros [[[=]|[[=]|[]]]|[[[=]|[]]|[Hne [= ->]]]].
    split; [done|]. by eexists _, _.
  - intros (Hne & ? & ? & [= <- _] & ->). right. right. by split.
  - intros (_ & ? & ? & ? & [= <- _ _] & Hrc & _). done.
  - intros (_ & ? & ? & [= -> _ _] & _). done.
  - intros [[[=]|[[=]|[]]]|[[[=]|[]]|[Hne [= ->]]]].
    split; [done|]. by eexists _, _, _.
  - intros (Hne & ? & ? & ? & [= _ _ <-] & _ & ->). right. right. by split.
Qed.

End WorkflowMore.

(* ===================================================================== *)
(** * More on the session object of [browser_automation.py] *)
(* ===================================================================== *)

Module SessionObjectMore.
Import PyStr Playwright PlaywrightFacts BrowserAutomation.

(** ** No method lets an [Exception] out *)

Lemma try_except_swallows {A} (body : M automation A) (failure : A) :
  swallows (try_except body (λ _, mret failure)).
Proof.
  intros e w what. unfold try_except.
  by destruct (body e w) as [[a|[x|x]] w'].
Qed.

Lemma with_page_swallows failure body :
  swallows body → swallows (with_page failure body).
Proof.
  intros Hb e w what. unfold with_page, mbind, M_bind, get.
  destruct (page (obj w)); [apply Hb | done].
Qed.

(** X9.  No method of the session object lets an instance of
    [Exception] out, whatever the browser does and whatever state the
    object is in: a failure of the browser becomes the return value
    [False] or [None]. *)
Theorem methods_never_raise_exception
    (url wait_until selector text code : str) (path : option str)
    (headless full_page : bool) (width height : nat) (timeout : N) :
  swallows (create_session headless width height)
  ∧ swallows (navigate_to_url url wait_until)
  ∧ swallows (take_screenshot path full_page)
  ∧ swallows get_page_title
  ∧ swallows get_page_url
  ∧ swallows (click_element selector timeout)
  ∧ swallows (fill_input selector text timeout)
  ∧ swallows (get_text_content selector timeout)
  ∧ swallows (wait_for_selector selector timeout)
  ∧ swallows (execute_javascript code)
  ∧ swallows close_session.
Proof.
  repeat split;
    first [ apply try_except_swallows
          | apply with_page_swallows, try_except_swallows ].
Qed.

(** ** What [create_session] leaves in the object *)

Lemma create_session_spec
    (headless : bool) (width height : nat) (e : env) (w : world automation) :
  if returned (e (length (calls w)) Start_playwright)
     && returned (e (1 + length (calls w)) (Launch headless))
     && returned (e (2 + length (calls w))
                    (New_context (Some (width, height))))
     && returned (e (3 + length (calls w)) New_page)
  then (create_session headless width height e w).1 = Ok (VBool true)
       ∧ obj (create_session headless width height e w).2
         = {| browser := Some (1 + length (calls w));
              context := Some (2 + length (calls w));
              page := Some (3 + length (calls w)) |}
       ∧ length (calls (create_session headless width height e w).2)
         = 4 + length (calls w)
  else (create_session headless width height e w).1 ≠ Ok (VBool true)
       ∧ page (obj (create_session headless width height e w).2)
         = page (obj w).
Proof.
  unfold create_session, try_except, mbind, M_bind, perform_obj,
    set_browser, set_context, set_page, mbind, M_bind, get, put, mret, M_ret.
  destruct (e (length (calls w)) Start_playwright) as [v0|[x|x]] eqn:E0;
    cbn [returned andb fst snd]; [|done|done].
  cbn [record calls]. rewrite length_app. cbn [length].
  replace (length (calls w) + 1) with (1 + length (calls w)) by lia.
  destruct (e (1 + length (calls w)) (Launch headless)) as [v1|[x|x]] eqn:E1;
    cbn [returned andb fst snd]; [|done|done].
  cbn [record calls obj]. rewrite !length_app. cbn [length].
  replace (length (calls w) + 1 + 1) with (2 + length (calls w)) by lia.
  destruct (e (2 + length (calls w)) (New_context (Some (width, height))))
    as [v2|[x|x]] eqn:E2; cbn [returned andb fst snd]; [|done|done].
  cbn [record calls obj]. rewrite !length_app. cbn [length].
  replace (length (calls w) + 1 + 1 + 1) with (3 + length (calls w)) by lia.
  destruct (e (3 + length (calls w)) New_page) as [v3|[x|x]] eqn:E3;
    cbn [returned andb fst snd]; [|done|done].
  cbn [record calls obj browser context page]. split; [done|]. split; [done|].
  rewrite !length_app. cbn [length]. lia.
Qed.


(** X10.  [create_session] returns [True] exactly when its four calls
    (starting Playwright, launching, creating the context, creating the
    page) all return, and the object then holds the three objects just
    created.  In every other case it does not return [True] and the
    [page] field is as it was, so that on a fresh object the interaction
    methods go on returning their failure values. *)
Theorem create_session_sets_page_iff_all_calls_return
    (headless : bool) (width height : nat) (e : env) (w : world automation) :
  if returned (e (length (calls w)) Start_playwright)
     && returned (e (1 + length (calls w)) (Launch headless))
     && returned (e (2 + length (calls w))
                    (New_context (Some (width, height))))
     && returned (e (3 + length (calls w)) New_page)
  then (create_session headless width height e w).1 = Ok (VBool true)
       ∧ obj (create_session headless width height e w).2
         = {| browser := Some (1 + length (calls w));
              context := Some (2 + length (calls w));
              page := Some (3 + length (calls w)) |}
       ∧ length (calls (create_session headless width height e w).2)
         = 4 + length (calls w)
  else (create_session headless width height e w).1 ≠ Ok (VBool true)
       ∧ page (obj (create_session headless width height e w).2)
         = page (obj w).
Proof. apply create_session_spec. Qed.

(** ** [close_session] does not forget the browser *)

Lemma close_session_once e w :
  is_Some (browser (obj w)) →
  obj (close_session e w).2 = obj w
  ∧ close_count (calls (close_session e w).2) = close_count (calls w) + 1.
Proof.
  intros [b Hb].
  unfold close_session, try_except, mbind, M_bind, get, perform, mret, M_ret.
  rewrite Hb.
  destruct (e (length (calls w)) Browser_close) as [v|[x|x]]; cbn [snd];
    by rewrite close_count_record.
Qed.

(** X11.  [close_session] calls [browser.close()] whenever the object
    holds a browser, and leaves the object as it is: a second call closes
    the same browser a second time. *)
Theorem close_session_twice_closes_twice (e : env) (w : world automation) :
  is_Some (browser (obj w)) →
  obj (close_session e w).2 = obj w
  ∧ close_count (calls (close_session e w).2) = close_count (calls w) + 1
  ∧ close_count (calls (close_session e (close_session e w).2).2)
    = close_count (calls w) + 2.
Proof.
  intros Hb. destruct (close_session_once e w Hb) as [Hobj Hcount].
  split; [done|]. split; [done|].
  destruct (close_session_once e (close_session e w).2) as [_ Hcount'].
  { by rewrite Hobj. }
  rewrite Hcount', Hcount. lia.
Qed.

Lemma close_session_twice_closes_twice_witness :
  close_count
    (calls (close_session cooperative
              (close_session cooperative
                 (create_session true 1280 720 cooperative start).2).2).2)
  = 2.
Proof.
  refine (proj2 (proj2 (close_session_twice_closes_twice cooperative
                          (create_session true 1280 720 cooperative start).2 _))).
  vm_compute. by eexists.
Defined.

(** ** What decides the result of [test_deployment] *)

Lemma bind_ok {A B} (m : M automation A) (f : A → M automation B) e w a w' :
  m e w = (Ok a, w') → (m ≫= f) e w = f a e w'.
Proof. intros H. unfold mbind, M_bind. by rewrite H. Qed.

Lemma length_record c a (w : world automation) :
  length (calls (record c a w)) = S (length (calls w)).
Proof. unfold record. cbn [calls]. rewrite length_app. cbn. lia. Qed.

(** A guarded method with a page: one call, whose failure becomes the
    failure value. *)
Lemma guarded_call failure c (g : value → value) hv e w :
  is_Some (page (obj w)) → never_interrupts e →
  with_page failure
    (try_except (perform c ≫= λ v, mret (g v)) (λ _, mret hv)) e w
  = (Ok (match e (length (calls w)) c with
         | Returns v => g v
         | Raises _ => hv
         end),
     record c (e (length (calls w)) c) w).
Proof.
  intros [p Hp] He.
  unfold with_page, try_except, mbind, M_bind, get, perform, mret, M_ret.
  rewrite Hp.
  destruct (e (length (calls w)) c) as [v|[x|x]] eqn:E; [done|done|].
  by destruct (He _ _ _ E).
Qed.

Lemma guarded_read failure c hv e w :
  is_Some (page (obj w)) → never_interrupts e →
  with_page failure (try_except (perform c) (λ _, mret hv)) e w
  = (Ok (match e (length (calls w)) c with
         | Returns v => v
         | Raises _ => hv
         end),
     record c (e (length (calls w)) c) w).
Proof.
  intros [p Hp] He.
  unfold with_page, try_except, mbind, M_bind, get, perform, mret, M_ret.
  rewrite Hp.
  destruct (e (length (calls w)) c) as [v|[x|x]] eqn:E; [done|done|].
  by destruct (He _ _ _ E).
Qed.

(** Shows that a method always returns, by cases on the page and on
    the answers of the browser. *)
Ltac returns_always :=
  intros e w He;
  unfold with_page, try_except, mbind, M_bind, get, perform, mret, M_ret;
  repeat match goal with
         | |- context [match page (obj ?w) with _ => _ end] =>
             destruct (page (obj w))
         | |- context [match browser (obj ?w) with _ => _ end] =>
             destruct (browser (obj w))
         | |- context [e ?n ?c] =>
             let E := fresh "E" in
             destruct (e n c) as [?|[?|?]] eqn:E;
             [| |by destruct (He _ _ _ E)]
         end;
  eauto.

Lemma get_text_content_returns selector timeout :
  always_returns (get_text_content selector timeout).
Proof. unfold get_text_content. returns_always. Qed.

Lemma fill_input_returns selector text timeout :
  always_returns (fill_input selector text timeout).
Proof. unfold fill_input. returns_always. Qed.

Lemma take_screenshot_returns path full_page :
  always_returns (take_screenshot path full_page).
Proof.
  unfold take_screenshot. destruct path as [[|c p]|]; returns_always.
Qed.

Lemma execute_javascript_returns code :
  always_returns (execute_javascript code).
Proof. unfold execute_javascript. returns_always. Qed.

Lemma close_session_returns : always_returns close_session.
Proof. unfold close_session. returns_always. Qed.

Lemma always_returns_bind {A B} (m : M automation A) (f : A → M automation B) :
  always_returns m → (∀ a, always_returns (f a)) → always_returns (m ≫= f).
Proof.
  intros Hm Hf e w He. destruct (Hm e w He) as (a & w1 & Hrun & Hobj).
  rewrite (bind_ok _ _ _ _ _ _ Hrun).
  destruct (Hf a e w1 He) as (b & w2 & Hrun' & Hobj').
  exists b, w2. split; [done | congruence].
Qed.

Lemma always_returns_ret {A} (a : A) : always_returns (mret a : M automation A).
Proof. intros e w He. by exists a, w. Qed.

(** The steps after the sleep: their results are not looked at. *)
Lemma remaining_steps_return :
  always_returns
    (get_text_content (lit "#my-id") 30000;;
     fill_input (lit "#peer-id-input") (lit "test-peer-id") 30000;;
     fill_input (lit "#message-input") (lit "Hello, World!") 30000;;
     take_screenshot (Some (lit "deployment_test.png")) true;;
     execute_javascript console_errors_script;;
     mret tt).
Proof.
  repeat first
    [ apply always_returns_ret
    | apply get_text_content_returns
    | apply fill_input_returns
    | apply take_screenshot_returns
    | apply execute_javascript_returns
    | apply always_returns_bind; [|intros ?] ].
Qed.

(** The title that the assertion of the test accepts. *)
Lemma test_steps_result e :
  never_interrupts e →
  returned (e 0 Start_playwright) && returned (e 1 (Launch false))
  && returned (e 2 (New_context (Some (1280, 720))))
  && returned (e 3 New_page) = true →
  returned (e 7 (Async_sleep 3)) = true →
  ∃ w',
    test_steps e start
    = (if bool_decide (e 6 Title = Returns (VStr (lit "WebRTC PeerJS Chat")))
       then Ok tt else Raise (Exception "AssertionError"),
       w').
Proof.
  intros He Hsession Hsleep.
  pose proof (create_session_spec false 1280 720 e start) as Hcreate.
  change (length (calls start)) with 0 in Hcreate. cbn [Nat.add] in Hcreate.
  rewrite Hsession in Hcreate. destruct Hcreate as (Hok & Hobj & Hlen).
  destruct (create_session false 1280 720 e start) as [r w4] eqn:Ecreate.
  cbn [fst snd] in Hok, Hobj, Hlen. subst r.
  assert (is_Some (page (obj w4))) as Hpage by (rewrite Hobj; by eexists).
  unfold test_steps, navigate_to_url, wait_for_selector, get_page_title.
  rewrite (bind_ok _ _ _ _ _ _ Ecreate).
  rewrite (bind_ok _ _ _ _ _ _ (guarded_call _ _ _ _ e w4 Hpage He)).
  rewrite Hlen.
  set (w5 := record _ _ w4).
  assert (is_Some (page (obj w5))) as Hpage5 by done.
  rewrite (bind_ok _ _ _ _ _ _ (guarded_call _ _ _ _ e w5 Hpage5 He)).
  assert (length (calls w5) = 5) as -> by (unfold w5; by rewrite length_record, Hlen).
  set (w6 := record _ _ w5).
  assert (is_Some (page (obj w6))) as Hpage6 by done.
  rewrite (bind_ok _ _ _ _ _ _ (guarded_read _ _ _ e w6 Hpage6 He)).
  assert (length (calls w6) = 6) as Hlen6.
  { unfold w6, w5. by rewrite !length_record, Hlen. }
  rewrite Hlen6.
  set (w7 := record _ _ w6).
  assert (bool_decide
            (match e 6 Title with Returns v => v | Raises _ => VNone end
             = VStr (lit "WebRTC PeerJS Chat"))
          = bool_decide (e 6 Title = Returns (VStr (lit "WebRTC PeerJS Chat"))))
    as ->.
  { apply bool_decide_ext. destruct (e 6 Title) as [v|x]; split; congruence. }
  destruct (bool_decide (e 6 Title = _)); cbn [assert_].
  - unfold mbind at 1, M_bind at 1, mret at 1, M_ret at 1.
    assert (length (calls w7) = 7) as Hlen7.
    { unfold w7. by rewrite length_record, Hlen6. }
    assert (∃ v, perform (S := automation) (Async_sleep 3) e w7
                 = (Ok v, record (Async_sleep 3) (e 7 (Async_sleep 3)) w7))
      as [v Hperform].
    { unfold perform. rewrite Hlen7.
      destruct (e 7 (Async_sleep 3)); [by eexists | done]. }
    rewrite (bind_ok _ _ _ _ _ _ Hperform).
    destruct (remaining_steps_return
                e (record (Async_sleep 3) (e 7 (Async_sleep 3)) w7) He)
      as ([] & w' & Hrest & _).
    exists w'. exact Hrest.
  - by exists w7.
Qed.

(** X12.  When the session could be created, the sleep is not disturbed
    and nothing interrupts, [test_deployment] returns normally exactly
    when the page has the expected title, and raises the assertion error
    otherwise.  The results of navigating, waiting for the selector,
    reading the identifier, filling the two inputs, taking the screenshot
    and running the script are never looked at: the test passes even when
    all of these fail. *)
Theorem test_result_depends_on_title_only (e : env) :
  never_interrupts e →
  returned (e 0 Start_playwright) && returned (e 1 (Launch false))
  && returned (e 2 (New_context (Some (1280, 720))))
  && returned (e 3 New_page) = true →
  returned (e 7 (Async_sleep 3)) = true →
  (test_deployment e start).1
  = if bool_decide (e 6 Title = Returns (VStr (lit "WebRTC PeerJS Chat")))
    then Ok tt else Raise (Exception "AssertionError").
Proof.
  intros He Hsession Hsleep.
  destruct (test_steps_result e He Hsession Hsleep) as [w' Hsteps].
  unfold test_deployment, try_finally, try_except. rewrite Hsteps.
  assert (∀ (r : outcome unit) w,
            (let '(r', w'') := (r, w) in
             match (close_session;; mret tt) e w'' with
             | (Ok _, w3) => (r', w3)
             | (Raise x, w3) => (Raise x, w3)
             end).1 = r) as Hfinally.
  { intros r w.
    destruct (close_session_returns e w He) as (v & w3 & Hclose & _).
    by rewrite (bind_ok _ _ _ _ _ _ Hclose). }
  destruct (bool_decide (e 6 Title = _)); [apply Hfinally|].
  unfold on_error.
  destruct (take_screenshot_returns (Some (lit "deployment_error.png")) true
              e w' He) as (v & w2 & Hshot & _).
  rewrite (bind_ok _ _ _ _ _ _ Hshot). unfold raise. apply Hfinally.
Qed.

Lemma test_result_depends_on_title_only_witness :
  (test_deployment only_title_works start).1 = Ok tt.
Proof.
  apply (test_result_depends_on_title_only only_title_works).
  - intros n c what. by destruct c.
  - reflexivity.
  - reflexivity.
Defined.

End SessionObjectMore.

(* ===================================================================== *)
(** * More on the interactive checker of [test_deployment.py] *)
(* ===================================================================== *)

Module InteractiveCheckerMore.
Import PyStr Playwright PlaywrightFacts TestDeployment.

Lemma test_steps_pass_iff (e : env) (c0 c1 c2 c3 : call * answer) :
  match test_steps e {| calls := [c0; c1; c2; c3]; obj := tt |} with
  | (Ok _, w') => steps_pass e = true ∧ length (calls w') = 23
  | (Raise _, _) => steps_pass e = false
  end.
Proof.
  unfold test_steps, steps_pass, mbind, M_bind, perform, assert_, raise,
    mret, M_ret, record.
  cbn -[lit].
  repeat (first
    [ match goal with
      | |- context [match ?e ?n ?c with Returns _ => _ | Raises _ => _ end] =>
          destruct (e n c) as [?v|?x]
      end
    | match goal with
      | |- context [in_ _ ?v] => destruct v
      | |- context [len ?v] => destruct v
      end
    | match goal with
      | |- context [if ?b then _ else _] => destruct b
      end ];
    cbn -[lit contains]; try reflexivity).
  all: try (split; reflexivity).
Qed.

Lemma is_ok_unit (r : outcome unit) : is_ok r = true ↔ r = Ok tt.
Proof. destruct r as [[]|]; cbn; split; congruence. Qed.

Lemma test_deployment_is_ok (e : env) :
  is_ok (test_deployment e start).1 = passes e.
Proof.
  unfold test_deployment, with_playwright, passes, session_starts,
    session_ends, start, try_finally, try_except, on_error, mbind, M_bind,
    perform_obj, perform, raise, mret, M_ret, record.
  cbn -[lit test_steps steps_pass].
  repeat (match goal with
      | |- context [match ?e ?n ?c with Returns _ => _ | Raises _ => _ end] =>
          destruct (e n c) as [?v|?x]
      end;
    cbn -[lit test_steps steps_pass]; try reflexivity).
  match goal with
  | |- context [test_steps e {| calls := [?c0; ?c1; ?c2; ?c3]; obj := tt |}] =>
      pose proof (test_steps_pass_iff e c0 c1 c2 c3) as H;
      destruct (test_steps e {| calls := [c0; c1; c2; c3]; obj := tt |})
        as [[[]|x] w']
  end.
  - destruct H as [-> Hlen]. rewrite Hlen.
    destruct (e 23 Browser_close); cbn -[lit];
      rewrite ?length_app, ?Hlen; cbn -[lit];
      destruct (e 24 Stop_playwright); reflexivity.
  - rewrite H. cbn. destruct x as [what|]; cbn -[lit].
    all: repeat (match goal with
      | |- context [match ?e ?n ?c with Returns _ => _ | Raises _ => _ end] =>
          destruct (e n c) as [?v|?x]
      end; cbn -[lit]; try reflexivity).
Qed.

(** The browser in which every step succeeds passes. *)
Lemma cooperative_passes : passes cooperative = true.
Proof. reflexivity. Qed.

(** X13.  The interactive checker completes normally exactly when every
    one of its twenty-five browser calls returns and each of its
    assertions holds on the answers: the title and the two input values
    are the expected texts, the heading contains the title, the peer id
    has sixteen characters, the send button is reported disabled, and the
    test output has a length.  In every other run it raises. *)
Theorem test_passes_iff_calls_return_and_assertions_hold (e : env) :
  (test_deployment e start).1 = Ok tt ↔ passes e = true.
Proof. rewrite <- test_deployment_is_ok. symmetry. apply is_ok_unit. Qed.

End InteractiveCheckerMore.

(* ===================================================================== *)
(** * More on the local HTTPS server of [test_https_server.py] *)
(* ===================================================================== *)

Module HttpsServerMore.
Import PyStr TestHttpsServer TestHttpsServerFacts.

(** Settles an equivalence between an outcome and [can_serve] once
    every part of the environment is known. *)
Ltac settle :=
  split;
  [ intros H;
    first [ discriminate H
          | repeat split;
            first [ done | by left | right; by do 2 eexists ] ]
  | intros (Hc & Hl & Hb & Hw);
    first [ done | discriminate
          | destruct Hc as [Hc|(? & ? & Hc)]; discriminate ] ].

Lemma start_https_server_spec (port : Z) (e : environment) :
  ((start_https_server port e).1.1 = Returned tt ↔ can_serve e port)
  ∧ (serving_on (start_https_server port e).2 = Some port ↔ can_serve e port)
  ∧ (∀ p, p ∈ bound_ports (start_https_server port e).2 → p = port).
Proof.
  unfold start_https_server, create_self_signed_cert, can_serve.
  destruct (exists_ (files e) cert_file && exists_ (files e) key_file) eqn:Hpair;
    destruct (openssl e) eqn:Hssl;
    destruct (load_error e) eqn:Hload;
    destruct (bind_error e port) eqn:Hbind;
    destruct (wrap_error e) eqn:Hwrap;
    cbn.
  all: match goal with
       | |- context [serving_on ?ev] =>
           let r := eval vm_compute in (serving_on ev) in
           change (serving_on ev) with r
       end.
  all: split; [|split];
    [ settle | settle
    | intros p Hp;
      solve [ by apply elem_of_nil in Hp
            | by apply list_elem_of_singleton in Hp ] ].
Qed.

Section Main.
Variable int : str → option Z.

Lemma choose_port_events (argv : list str) :
  bound_ports (choose_port int argv).2 = []
  ∧ Serve_forever ∉ (choose_port int argv).2 ++ [Print Banner].
Proof.
  unfold choose_port.
  destruct argv as [|script [|arg rest]]; [| |destruct (int arg)];
    (split; [done|]); cbn; intros Hin;
    repeat (apply elem_of_cons in Hin as [[=]|Hin]);
    by apply elem_of_nil in Hin.
Qed.

Lemma main_unfold (argv : list str) (e : environment) :
  main int argv e
  = ((start_https_server (choose_port int argv).1 e).1.1,
     (start_https_server (choose_port int argv).1 e).1.2,
     ((choose_port int argv).2 ++ [Print Banner])
       ++ (start_https_server (choose_port int argv).1 e).2).
Proof.
  unfold main. destruct (choose_port int argv) as [port ev]. cbn [fst snd].
  destruct (start_https_server port e) as [[r files'] ev']. cbn [fst snd].
  by rewrite <- (assoc_L (++)).
Qed.

(** X14.  The script serves exactly when nothing fails: the pair exists
    or [openssl] generates it, and loading the certificate, binding the
    port and wrapping the socket raise nothing.  It then serves on the
    port given as first argument, or on 8443 when there is no argument or
    [int] rejects it; and whatever happens, no other port is bound. *)
Theorem server_runs_iff_nothing_fails (argv : list str) (e : environment) :
  let port := (choose_port int argv).1 in
  ((main int argv e).1.1 = Returned tt ↔ can_serve e port)
  ∧ (serving_on (main int argv e).2 = Some port ↔ can_serve e port)
  ∧ (∀ p, p ∈ bound_ports (main int argv e).2 → p = port)
  ∧ port = match argv with
           | _ :: arg :: _ => default 8443%Z (int arg)
           | _ => 8443%Z
           end.
Proof.
  intros port. rewrite main_unfold. cbn [fst snd]. fold port.
  destruct (choose_port_events argv) as [Hports Hserve].
  destruct (start_https_server_spec port e) as (Hr & Hs & Hb).
  split; [exact Hr|]. split; [|split].
  - rewrite serving_on_app_l; [exact Hs| |exact Hserve].
    by rewrite bound_ports_app, Hports.
  - intros p. rewrite !bound_ports_app, Hports. cbn [app bound_ports omap].
    apply Hb.
  - subst port. unfold choose_port.
    destruct argv as [|script [|arg rest]]; [done..|].
    by destruct (int arg).
Qed.

(** X15.  Without the complete pair, a failing or missing [openssl] ends
    the script with exit status 1 after one attempt: the failure is
    reported, the directory is left as it was, no certificate is loaded,
    no port is bound and nothing is served. *)
Theorem failed_generation_exits_with_status_one
    (argv : list str) (e : environment) :
  exists_ (files e) cert_file && exists_ (files e) key_file = false →
  openssl e = Called_process_error ∨ openssl e = File_not_found →
  (main int argv e).1.1 = Sys_exit 1
  ∧ (main int argv e).1.2 = files e
  ∧ (∃ before failure,
       (main int argv e).2
       = before ++ [Print Creating_cert; Run_openssl openssl_args; Print failure]
       ∧ (failure = Cert_create_failed ∨ failure = Openssl_not_found)
       ∧ before = (choose_port int argv).2 ++ [Print Banner])
  ∧ bound_ports (main int argv e).2 = []
  ∧ serving_on (main int argv e).2 = None.
Proof.
  intros Hpair Hssl. rewrite main_unfold. cbn [fst snd].
  destruct (choose_port_events argv) as [Hports Hserve].
  unfold start_https_server, create_self_signed_cert. rewrite Hpair.
  destruct Hssl as [-> | ->]; cbn [fst snd app].
  all: split; [done|]; split; [done|]; split;
    [ eexists _, _; split; [reflexivity|]; split; [|reflexivity]; auto |].
  all: rewrite serving_on_app_l by (done || by rewrite bound_ports_app, Hports).
  all: by rewrite !bound_ports_app, Hports.
Qed.

End Main.

Lemma failed_generation_exits_with_status_one_witness :
  (main int_ascii [lit "test_https_server.py"] no_openssl).1.1 = Sys_exit 1
  ∧ bound_ports (main int_ascii [lit "test_https_server.py"] no_openssl).2 = [].
Proof.
  pose proof (failed_generation_exits_with_status_one int_ascii
                [lit "test_https_server.py"] no_openssl) as H.
  destruct H as (Hexit & _ & _ & Hports & _);
    [by vm_compute | by right | by split].
Defined.

(** X16.  Whenever [create_self_signed_cert] returns, it returns the two
    fixed names and both files exist afterwards (a successful [openssl]
    run having written them), so that calling it again reuses the pair:
    the second call returns the same names, does not run [openssl] and
    leaves the directory as the first call left it. *)
Theorem certificate_is_generated_at_most_once
    (files files' : directory) (o o' : openssl_result)
    (pair : string * string) (ev : list event) :
  create_self_signed_cert files o = (Returned pair, files', ev) →
  pair = (cert_file, key_file)
  ∧ exists_ files' cert_file = true ∧ exists_ files' key_file = true
  ∧ create_self_signed_cert files' o'
    = (Returned pair, files', [Print Cert_files_exist]).
Proof.
  unfold create_self_signed_cert at 1.
  destruct (exists_ files cert_file && exists_ files key_file) eqn:Hpair.
  - intros [= <- <- <-]. apply andb_true_iff in Hpair as [Hc Hk].
    repeat split; [done..|].
    unfold create_self_signed_cert. by rewrite Hc, Hk.
  - destruct o as [key cert| | |]; intros [= <- <- <-].
    assert (exists_ (<[cert_file:=cert]> (<[key_file:=key]> files)) cert_file
            = true) as Hc.
    { apply exists_true. rewrite lookup_insert_eq. by eexists. }
    assert (exists_ (<[cert_file:=cert]> (<[key_file:=key]> files)) key_file
            = true) as Hk.
    { apply exists_true. rewrite lookup_insert_ne by done.
      rewrite lookup_insert_eq. by eexists. }
    repeat split; [done..|].
    unfold create_self_signed_cert. by rewrite Hc, Hk.
Qed.

Lemma certificate_is_generated_at_most_once_witness :
  create_self_signed_cert {[ cert_file := "CERT"; key_file := "KEY" ]}
    Called_process_error
  = (Returned (cert_file, key_file), {[ cert_file := "CERT"; key_file := "KEY" ]},
     [Print Cert_files_exist]).
Proof.
  refine (proj2 (proj2 (proj2
    (certificate_is_generated_at_most_once
       ∅ _ (Generated "KEY" "CERT") Called_process_error _ _ _)))).
  reflexivity.
Defined.

End HttpsServerMore.

(* ===================================================================== *)
(** * The short workflow of [quick_deploy_test.py] *)
(* ===================================================================== *)

Module QuickDeployTestFacts.
Import PyStr QuickDeployTest.

Section Workflow.
Variable subprocess_run : list string → run_result.

(** X17.  The short workflow exits with status 0 exactly when both
    commands exit with status 0, and then announces that all tests
    passed; in every other case (a command exits with another status,
    times out or raises) the exit status is 1 and nothing is announced
    as passed overall.  No exception of a command leaves the script. *)
Theorem quick_exit_status_zero_iff_both_commands_succeed :
  ((script subprocess_run).1 = 0%Z
   ↔ exited_zero (subprocess_run http_command) = true
     ∧ exited_zero (subprocess_run screenshot_command) = true)
  ∧ ((script subprocess_run).1 = 0%Z ∨ (script subprocess_run).1 = 1%Z)
  ∧ (Log All_passed ∈ (script subprocess_run).2 ↔ (script subprocess_run).1 = 0%Z).
Proof.
  unfold script, main, exited_zero.
  destruct (subprocess_run http_command) as [rc|e];
    [destruct (rc =? 0)%Z|];
    [destruct (subprocess_run screenshot_command) as [rc'|e'];
     [destruct (rc' =? 0)%Z|]| |];
    cbn [fst snd app].
  all: match goal with
       | |- context [?m ∈ ?ev] =>
           let b := eval vm_compute in (bool_decide (m ∈ ev)) in
           assert (bool_decide (m ∈ ev) = b) as Hin by (vm_compute; reflexivity)
       end.
  all: first [ apply bool_decide_eq_true in Hin
             | apply bool_decide_eq_false in Hin ].
  all: repeat split; auto; try done; try (intros [? ?]; done).
Qed.

(** X18.  The short workflow waits thirty seconds before its first
    command, always runs the HTTP check, and runs the screenshot command
    only after the HTTP check exited with status 0: a failed, timed-out
    or raising HTTP check ends the run with that one command. *)
Theorem screenshot_only_after_http_check_succeeds :
  commands_run (script subprocess_run).2
  = http_command
      :: (if exited_zero (subprocess_run http_command)
          then [screenshot_command] else [])
  ∧ slept_before_first_command (script subprocess_run).2 = 30.
Proof.
  unfold script, main, exited_zero.
  destruct (subprocess_run http_command) as [rc|e];
    [destruct (rc =? 0)%Z|];
    [destruct (subprocess_run screenshot_command) as [rc'|e'];
     [destruct (rc' =? 0)%Z|]| |];
    by vm_compute.
Qed.

End Workflow.

End QuickDeployTestFacts.

(* ===================================================================== *)
(** * The checks of [test_deployment_uvx.py] *)
(* ===================================================================== *)

Module TestDeploymentUvxFacts.
Import PyStr TestDeploymentUvx.

Lemma uvx_commands_run_app ev ev' :
  commands_run (ev ++ ev') = commands_run ev ++ commands_run ev'.
Proof. apply omap_app. Qed.

Lemma processes_started_app ev ev' :
  processes_started (ev ++ ev') = processes_started ev ++ processes_started ev'.
Proof. apply omap_app. Qed.

Section Script.
Variable subprocess_run : list string → run_result.
Variable popen : list string → popen_result.
Variable stat : string → option N.
Variable input : input_result.
Variable lower : str → str.

Lemma run_uvx_command_spec (args : list string) :
  (run_uvx_command subprocess_run args).1.1.1
  = exited_zero (subprocess_run (uvx ++ args))
  ∧ commands_run (run_uvx_command subprocess_run args).2 = [uvx ++ args]
  ∧ processes_started (run_uvx_command subprocess_run args).2 = [].
Proof.
  unfold run_uvx_command, exited_zero.
  by destruct (subprocess_run (uvx ++ args)).
Qed.

Lemma in_background_spec (cmd : list string) (seconds : nat) :
  commands_run (in_background popen cmd seconds).2 = []
  ∧ processes_started (in_background popen cmd seconds).2 = [cmd].
Proof. unfold in_background. by destruct (popen cmd). Qed.

Lemma test_deployment_with_uvx_spec :
  (test_deployment_with_uvx subprocess_run popen).1 = screenshot_ok subprocess_run
  ∧ commands_run (test_deployment_with_uvx subprocess_run popen).2
    = (uvx ++ screenshot_args)
        :: (if screenshot_ok subprocess_run then [uvx ++ pdf_args] else [])
  ∧ processes_started (test_deployment_with_uvx subprocess_run popen).2
    = if screenshot_ok subprocess_run then [codegen_command] else [].
Proof.
  unfold test_deployment_with_uvx, screenshot_ok.
  destruct (run_uvx_command_spec screenshot_args) as (Hok & Hrun & Hproc).
  destruct (run_uvx_command subprocess_run screenshot_args)
    as [[[success stdout] stderr] ev1].
  cbn [fst snd] in Hok, Hrun, Hproc. rewrite <- Hok.
  destruct success.
  - destruct (run_uvx_command_spec pdf_args) as (_ & Hrun' & Hproc').
    destruct (run_uvx_command subprocess_run pdf_args)
      as [[[success' stdout'] stderr'] ev2].
    destruct (in_background_spec codegen_command 3) as (Hrun3 & Hproc3).
    destruct (in_background popen codegen_command 3) as [error ev3].
    cbn [fst snd] in *.
    rewrite !uvx_commands_run_app, !processes_started_app.
    rewrite Hrun, Hrun', Hrun3, Hproc, Hproc', Hproc3. done.
  - cbn [fst snd].
    rewrite !uvx_commands_run_app, !processes_started_app.
    rewrite Hrun, Hproc. done.
Qed.

Lemma validate_files_spec (paths : list string) (all_exist : bool) :
  validate_files stat paths all_exist
  = (all_exist && forallb (exists_ stat) paths, map (file_line stat) paths).
Proof.
  revert all_exist. induction paths as [|path paths IH]; intros all_exist.
  - cbn. by rewrite andb_true_r.
  - cbn [validate_files forallb map]. unfold exists_ at 1, file_line at 1.
    destruct (stat path) as [size|]; rewrite IH.
    + rewrite bool_decide_eq_true_2 by by eexists. done.
    + rewrite bool_decide_eq_false_2 by by intros [? [=]].
      by rewrite andb_false_r.
Qed.

Lemma validate_deployment_files_spec :
  validate_deployment_files stat
  = (forallb (exists_ stat) files_to_check,
     Print Validating_files :: map (file_line stat) files_to_check).
Proof.
  unfold validate_deployment_files. by rewrite validate_files_spec.
Qed.

(** X19.  The [uvx] test returns [True] exactly when the screenshot
    command exits with status 0.  A screenshot command that fails, times
    out or raises ends the test at once, before the PDF command and the
    interactivity check; after a successful screenshot both always run,
    and neither a failed PDF command nor a failed interactivity check
    changes the result. *)
Theorem uvx_test_passes_iff_screenshot_succeeds :
  (test_deployment_with_uvx subprocess_run popen).1 = screenshot_ok subprocess_run
  ∧ commands_run (test_deployment_with_uvx subprocess_run popen).2
    = (uvx ++ screenshot_args)
        :: (if screenshot_ok subprocess_run then [uvx ++ pdf_args] else [])
  ∧ processes_started (test_deployment_with_uvx subprocess_run popen).2
    = if screenshot_ok subprocess_run then [codegen_command] else [].
Proof. exact test_deployment_with_uvx_spec. Qed.

(** X20.  The validation looks at every file of its list, also after a
    missing one: it prints one line per file, in the order of the list,
    with the size of a file that exists, and returns [True] exactly when
    every file exists. *)
Theorem validation_reports_every_file (paths : list string) :
  (validate_files stat paths true).1 = forallb (exists_ stat) paths
  ∧ (validate_files stat paths true).2 = map (file_line stat) paths
  ∧ validate_deployment_files stat
    = (exists_ stat "deployment_test_uvx.png"
       && exists_ stat "deployment_test_uvx.pdf",
       [ Print Validating_files;
         file_line stat "deployment_test_uvx.png";
         file_line stat "deployment_test_uvx.pdf" ]).
Proof.
  rewrite validate_files_spec, validate_deployment_files_spec.
  cbn. by rewrite andb_true_r.
Qed.

Lemma script_ending :
  (script subprocess_run popen stat input lower).1
  = (if screenshot_ok subprocess_run then
       if forallb (exists_ stat) files_to_check then
         if is_eof input then Uncaught "EOFError" else Exit 0
       else Exit 0
     else Exit 1)
  ∧ (screenshot_ok subprocess_run = true →
     forallb (exists_ stat) files_to_check = false →
     Print Files_not_generated ∈ (script subprocess_run popen stat input lower).2).
Proof.
  unfold script.
  destruct test_deployment_with_uvx_spec as (Hok & _).
  destruct (test_deployment_with_uvx subprocess_run popen) as [success ev].
  cbn [fst] in Hok. rewrite <- Hok. rewrite validate_deployment_files_spec.
  destruct success; [|by split].
  destruct (forallb (exists_ stat) files_to_check).
  - split; [|done]. destruct input as [text| |]; [|done..].
    cbn [is_eof]. by destruct (is_yes _).
  - split; [done|]. intros _ _. cbn [snd].
    apply elem_of_app. right. apply list_elem_of_singleton. done.
Qed.


Lemma file_lines_start_nothing (paths : list string) :
  processes_started (map (file_line stat) paths) = [].
Proof. by induction paths. Qed.

Lemma quick_browser_test_spec :
  processes_started (quick_browser_test popen).2 = [browser_command].
Proof.
  unfold quick_browser_test.
  destruct (in_background_spec browser_command 5) as (_ & Hproc).
  destruct (in_background popen browser_command 5) as [[e|] ev];
    cbn [fst snd] in *; rewrite !processes_started_app, Hproc; done.
Qed.

Lemma script_processes :
  processes_started (script subprocess_run popen stat input lower).2
  = (if screenshot_ok subprocess_run then [codegen_command] else [])
    ++ (if screenshot_ok subprocess_run
           && forallb (exists_ stat) files_to_check
           && answered_yes lower input
        then [browser_command] else []).
Proof.
  unfold script.
  destruct test_deployment_with_uvx_spec as (Hok & _ & Hproc).
  destruct (test_deployment_with_uvx subprocess_run popen) as [success ev].
  cbn [fst snd] in Hok, Hproc. rewrite <- Hok in *.
  rewrite validate_deployment_files_spec.
  assert (processes_started (Print Banner :: ev) = processes_started ev)
    as Hbanner by done.
  assert (∀ paths, processes_started (Print Validating_files
                                        :: map (file_line stat) paths) = [])
    as Hfiles by (intros paths; apply file_lines_start_nothing).
  destruct success.
  - destruct (forallb (exists_ stat) files_to_check).
    + destruct input as [text| |]; cbn [answered_yes andb].
      * unfold is_yes. destruct (bool_decide _); cbn [snd];
          rewrite !processes_started_app, ?quick_browser_test_spec,
            Hbanner, Hfiles, Hproc; done.
      * cbn [snd].
        rewrite !processes_started_app, Hbanner, Hfiles, Hproc. done.
      * cbn [snd].
        rewrite !processes_started_app, Hbanner, Hfiles, Hproc. done.
    + cbn [snd andb].
      rewrite !processes_started_app, Hbanner, Hfiles, Hproc. done.
  - cbn [snd andb]. rewrite processes_started_app, Hbanner, Hproc. done.
Qed.

(** X22.  The browser is opened for the quick test exactly when the
    screenshot command succeeded, both generated files exist, and the
    answer at the prompt is [y] or [yes] after stripping white space and
    lowering the case. *)
Theorem browser_test_only_on_yes :
  browser_command ∈ processes_started (script subprocess_run popen stat input lower).2
  ↔ screenshot_ok subprocess_run = true
    ∧ forallb (exists_ stat) files_to_check = true
    ∧ answered_yes lower input = true.
Proof.
  rewrite script_processes.
  destruct (screenshot_ok subprocess_run),
    (forallb (exists_ stat) files_to_check), (answered_yes lower input);
    cbn [andb app]; split.
  all: try (intros (? & ? & ?); discriminate).
  all: try (intros _; apply elem_of_cons; right; by apply list_elem_of_singleton).
  all: try (intros _; done).
  all: intros Hin; exfalso; revert Hin.
  all: try (intros Hin%list_elem_of_singleton; revert Hin; by vm_compute).
  all: by intros ?%elem_of_nil.
Qed.

End Script.

(** A run in which the PDF command fails: the missing file is reported,
    and the exit status is 0. *)
Lemma missing_pdf_exits_zero popen input lower :
  (script pdf_fails popen only_screenshot input lower).1 = Exit 0
  ∧ Print Files_not_generated
      ∈ (script pdf_fails popen only_screenshot input lower).2.
Proof.
  destruct (script_ending pdf_fails popen only_screenshot input lower)
    as [Hexit Hline].
  split; [exact Hexit|]. by apply Hline.
Qed.

End TestDeploymentUvxFacts.
